(** * Real-time rooms, join gate and REST handlers of task-flow-api

    A shallow embedding of the parts of the TypeScript sources that decide
    the room authorisation and event fan-out core:
    - src/utils/socketManager.ts (both variants: src/src/utils and
      unnamed/part_003) for the join-board / leave-board handlers and
      emitToBoardRoom;
    - unnamed/part_002 for the Pusher dispatcher triggerBoardEvent;
    - src/routes/pusher.ts for POST /pusher/auth;
    - the REST routers (boards.ts, lists.ts, tasks.ts, api.ts, part_006):
      board listing, creation and members, task assignment, creation and
      moves between lists;
    - authMiddleware (part_000), getCredentials (routes/auth.ts), the
      Socket.IO authentication and CORS checks, initializePusher (part_002).

    The connection registry of the code is the in-memory adapter of
    socket.io: a map from room to the set of socket ids in it and a map
    from socket id to the set of its rooms.  Board records are the
    persisted documents of models/Board.ts. *)

From stdpp Require Import base gmap sets list strings pretty.
From Stdlib Require Import String Ascii ZArith Lia.

Open Scope string_scope.

(* ------------------------------------------------------------------ *)
(** ** Persisted data (models/Board.ts, models/List.ts, models/Task.ts) *)

(** An ObjectId is kept as its canonical [toString()]: 24 lower-case hex
    digits. *)
Record Board := mkBoard {
  board_id : string;
  createdBy : string;
  members : list string
}.

(** The persisted board collection. *)
Definition BoardDb := list Board.

(** Lower-casing of one ASCII character (cast of a hex string to an
    ObjectId is case-insensitive; [toString()] prints lower case). *)
Definition lower_ascii (c : ascii) : ascii :=
  let n := nat_of_ascii c in
  if ((65 <=? n) && (n <=? 90))%nat then ascii_of_nat (n + 32)%nat else c.

Fixpoint lower (s : string) : string :=
  match s with
  | EmptyString => EmptyString
  | String c s' => String (lower_ascii c) (lower s')
  end.

Definition is_hex (c : ascii) : bool :=
  let n := nat_of_ascii c in
  (((48 <=? n) && (n <=? 57)) || ((65 <=? n) && (n <=? 70))
   || ((97 <=? n) && (n <=? 102)))%nat.

Fixpoint all_hex (s : string) : bool :=
  match s with
  | EmptyString => true
  | String c s' => is_hex c && all_hex s'
  end.

(** [mongoose.Types.ObjectId.isValid] on a string (bson >= 5): exactly
    24 hexadecimal digits. *)
Definition isValid (s : string) : bool :=
  (String.length s =? 24)%nat && all_hex s.

(** [new mongoose.Types.ObjectId(s).toString()] for a valid string. *)
Definition oid_toString (s : string) : string := lower s.

(** [Board.findById(boardId)]. *)
Definition findById (db : BoardDb) (boardId : string) : option Board :=
  List.find (fun b => String.eqb b.(board_id) (oid_toString boardId)) db.

(* ------------------------------------------------------------------ *)
(** ** The socket.io in-memory adapter (the connection registry) *)

Record Adapter := mkAdapter {
  rooms : gmap string (gset string);
  sids : gmap string (gset string)
}.

(** [rooms.get(room)] seen as a set, absent = empty. *)
Definition membersOf (a : Adapter) (room : string) : gset string :=
  default ∅ (rooms a !! room).

Definition joinedRoomsOf (a : Adapter) (id : string) : gset string :=
  default ∅ (sids a !! id).

(** [Adapter.addAll(id, new Set([room]))], as called by [socket.join(room)]:
    create the two sets if missing, then [Set.add] into both. *)
Definition addAll (id room : string) (a : Adapter) : Adapter :=
  {| rooms := <[room := {[id]} ∪ membersOf a room]> (rooms a);
     sids := <[id := {[room]} ∪ joinedRoomsOf a id]> (sids a) |}.

(** [Adapter._del(room, id)]: delete the id from the room's set if the
    room exists, and drop the room entry once its set is empty. *)
Definition del_room (room id : string) (rs : gmap string (gset string))
  : gmap string (gset string) :=
  match rs !! room with
  | None => rs
  | Some s =>
      let s' := s ∖ {[id]} in
      if decide (s' = ∅) then delete room rs else <[room := s']> rs
  end.

(** [Adapter.del(id, room)], as called by [socket.leave(room)]:
    [this.sids.get(id)?.delete(room)] then [_del]. *)
Definition del (id room : string) (a : Adapter) : Adapter :=
  {| rooms := del_room room id (rooms a);
     sids := match sids a !! id with
             | None => sids a
             | Some s => <[id := s ∖ {[room]}]> (sids a)
             end |}.

(** The room of a board: [`board:${boardId}`]. *)
Definition boardRoom (boardId : string) : string := String.append "board:" boardId.

(** A message pushed to one socket: event name and payload. *)
Inductive Payload :=
| PError (message : string)
| PJoined (boardId : string)
| PData (data : string).



(* ------------------------------------------------------------------ *)
(** ** The join-board / leave-board handlers (socketManager.ts) *)

(** What a handler does to its socket, in order. *)
Inductive SocketCall :=
| SJoin (room : string)
| SLeave (room : string)
| SEmit (ev : string) (p : Payload).

Definition msg_invalid : string := "Invalid board ID format".
Definition msg_not_found : string := "Board not found".
Definition msg_denied : string :=
  "Access denied: You are not a member of this board".
Definition msg_failed : string := "Failed to join board".

(** [socket.on('join-board', async (boardId) => ...)], with [userId] the
    [socket.data.userId] set by the authentication middleware.
    [new mongoose.Types.ObjectId(userId)] throws on an id that is not
    valid; the [catch] block then emits [Failed to join board]. *)
Definition join_board (db : BoardDb) (userId boardId : string) : list SocketCall :=
  if negb (isValid boardId) then [SEmit "error" (PError msg_invalid)]
  else
    match findById db boardId with
    | None => [SEmit "error" (PError msg_not_found)]
    | Some board =>
        if negb (isValid userId) then [SEmit "error" (PError msg_failed)]
        else
          let userObjectId := oid_toString userId in
          let isCreator := String.eqb board.(createdBy) userObjectId in
          let isMember :=
            existsb (fun memberId => String.eqb memberId userObjectId) board.(members) in
          if negb isCreator && negb isMember then [SEmit "error" (PError msg_denied)]
          else [SJoin (boardRoom boardId); SEmit "joined-board" (PJoined boardId)]
    end.

(** [socket.on('leave-board', (boardId) => socket.leave(`board:${boardId}`))]. *)
Definition leave_board (boardId : string) : list SocketCall :=
  [SLeave (boardRoom boardId)].

(** [Adapter.delAll(id)], run by [socket.leaveAll()]: [_del(room, id)]
    for each of its rooms, then [sids.delete(id)]. *)
Definition delAll (id : string) (a : Adapter) : Adapter :=
  {| rooms := set_fold (fun room rs => del_room room id rs) (rooms a)
                (joinedRoomsOf a id);
     sids := delete id (sids a) |}.

(** A socket is registered while the adapter has its room set. *)
Definition registered (a : Adapter) (sid : string) : bool :=
  bool_decide (is_Some (sids a !! sid)).

(** A server-side socket: its id and its [connected] flag. *)
Record Socket := mkSocket {
  sock_id : string;
  sock_connected : bool
}.

(** [socket.join(room)], [socket.leave(room)] and [socket.emit] of socket
    [s] on the adapter.  Once the socket has disconnected its [join] is
    the no-op that [_cleanup] installed. *)
Definition socket_call (s : Socket) (a : Adapter) (c : SocketCall) : Adapter :=
  match c with
  | SJoin room => if sock_connected s then addAll (sock_id s) room a else a
  | SLeave room => del (sock_id s) room a
  | SEmit _ _ => a
  end.

Definition run_socket (s : Socket) (a : Adapter) (cs : list SocketCall) : Adapter :=
  fold_left (socket_call s) cs a.

(** A disconnect ([Socket._onclose]): [_cleanup] runs [leaveAll()] (the
    adapter's [delAll(id)]) and sets [this.join = noop]; then
    [connected = false]. *)
Definition disconnect (s : Socket) (a : Adapter) : Socket * Adapter :=
  (mkSocket (sock_id s) false, delAll (sock_id s) a).

(** The calls of the connected socket [sid]. *)
Definition apply_call (sid : string) (a : Adapter) (c : SocketCall) : Adapter :=
  socket_call (mkSocket sid true) a c.

Definition run_calls (sid : string) (a : Adapter) (cs : list SocketCall) : Adapter :=
  fold_left (apply_call sid) cs a.

(** The outcome a client sees, read off the handler's calls. *)
Inductive Rejection := InvalidId | NotFound | Forbidden | JoinFailed.

Inductive JoinOutcome :=
| Rejected (r : Rejection)
| Accepted (room : string) (ackBoardId : string).

Definition outcome_of (cs : list SocketCall) : option JoinOutcome :=
  match cs with
  | [SEmit "error" (PError m)] =>
      if String.eqb m msg_invalid then Some (Rejected InvalidId)
      else if String.eqb m msg_not_found then Some (Rejected NotFound)
      else if String.eqb m msg_denied then Some (Rejected Forbidden)
      else if String.eqb m msg_failed then Some (Rejected JoinFailed)
      else None
  | [SJoin room; SEmit "joined-board" (PJoined b)] => Some (Accepted room b)
  | _ => None
  end.

(** Membership test of the gate: creator or listed member. *)
Definition is_creator_or_member (board : Board) (userId : string) : bool :=
  String.eqb board.(createdBy) (oid_toString userId)
  || existsb (fun m => String.eqb m (oid_toString userId)) board.(members).

(* ------------------------------------------------------------------ *)
(** ** POST /pusher/auth (routes/pusher.ts) *)

(** [channelName.match(/^private-board-(.+)$/)]: the prefix, then one or
    more characters none of which is a line terminator. *)
Fixpoint strip_prefix (p s : string) : option string :=
  match p, s with
  | EmptyString, _ => Some s
  | String c p', String d s' => if Ascii.eqb c d then strip_prefix p' s' else None
  | String _ _, EmptyString => None
  end.

Fixpoint no_line_terminator (s : string) : bool :=
  match s with
  | EmptyString => true
  | String c s' =>
      negb (Ascii.eqb c (ascii_of_nat 10)) && negb (Ascii.eqb c (ascii_of_nat 13))
      && no_line_terminator s'
  end.






(* ------------------------------------------------------------------ *)
(** ** The dispatchers: emitToBoardRoom (part_003) and triggerBoardEvent
    (part_002), with synchronous exceptions made explicit *)

(** A synchronous JavaScript computation: a value or a thrown error. *)
Inductive Result (A : Type) :=
| Ok (a : A)
| Throw (e : string).
Arguments Ok {A} a.
Arguments Throw {A} e.

Definition bindR {A B} (m : Result A) (k : A -> Result B) : Result B :=
  match m with
  | Ok a => k a
  | Throw e => Throw e
  end.

Notation "x <-- m ;; k" := (bindR m (fun x => k))
  (at level 100, m at next level, right associativity).


(** The event names of the emit helpers (emitListCreated, ...). *)
Inductive EventKind :=
| ListCreated | ListUpdated | ListDeleted
| TaskCreated | TaskUpdated | TaskDeleted
| BoardUpdated | BoardMemberAdded | BoardMemberRemoved.






(** What [trigger(channel, event, data)] of the Pusher client returns
    when it does not throw: the promise of its HTTP request to the Pusher
    API, which later resolves, or rejects (a network failure, a non-2xx
    answer). *)
Inductive TriggerPromise :=
| Resolves
| Rejects (reason : string).

(** A Pusher client: [trigger], which may also throw synchronously (the
    library validates the event and channel names before sending). *)
Definition PusherClient := string -> string -> Payload -> Result TriggerPromise.








(* ------------------------------------------------------------------ *)
(** ** PUT /tasks/:taskId (part_006): the update document *)

Record Task := mkTask {
  task_title : string;
  task_description : string;
  task_listId : string;
  task_assignedTo : list string;
  task_labels : list string;
  task_position : Z
}.

#[local] Set Warnings "-register-all".

(** JSON values of a request body. *)
Inductive Json :=
| JStr (s : string)
| JNum (z : Z)
| JArr (xs : list Json)
| JNull.

(** A parsed body: keys in insertion order. *)
Definition Body := list (string * Json).

(** [const { assignedTo, position, ...updateData } = req.body]. *)
Definition strip_protected (body : Body) : Body :=
  List.filter
    (fun kv => negb (String.eqb kv.1 "assignedTo" || String.eqb kv.1 "position"))
    body.

Fixpoint digits_value (s : string) (acc : nat) : option nat :=
  match s with
  | EmptyString => Some acc
  | String c s' =>
      let n := nat_of_ascii c in
      if ((48 <=? n) && (n <=? 57))%nat then digits_value s' (acc * 10 + (n - 48))%nat
      else None
  end.

(** A numeric path segment. *)
Definition parse_index (s : string) : option nat :=
  if String.eqb s "" then None else digits_value s 0.

(** Casting to a String path: strings as they are, numbers through
    [String(n)], anything else a CastError. *)
Definition cast_string (v : Json) : Result string :=
  match v with
  | JStr s => Ok s
  | JNum z => Ok (pretty z)
  | _ => Throw "CastError"
  end.

(** Cast to an ObjectId (its canonical string). *)
Definition cast_oid (v : Json) : Result string :=
  match v with
  | JStr s => if isValid s then Ok (oid_toString s) else Throw "CastError"
  | _ => Throw "CastError"
  end.

Fixpoint cast_oids (vs : list Json) : Result (list string) :=
  match vs with
  | [] => Ok []
  | v :: vs' => x <-- cast_oid v ;; xs <-- cast_oids vs' ;; Ok (x :: xs)
  end.

(** MongoDB's [$set] of an array element [arr.i]: replace in range,
    otherwise pad with nulls up to [i] (null kept as [""]). *)
Definition set_nth (l : list string) (i : nat) (x : string) : list string :=
  if (i <? List.length l)%nat then <[i := x]> l
  else l ++ replicate (i - List.length l) "" ++ [x].


(* ------------------------------------------------------------------ *)
(** ** PUT /lists/:listId/position: the reorder of a board's lists *)

(** [Array.prototype.findIndex] on list ids. *)
Fixpoint findIndex (id : string) (ls : list string) : option nat :=
  match ls with
  | [] => None
  | l :: ls' =>
      if String.eqb l id then Some 0%nat
      else match findIndex id ls' with Some i => Some (S i) | None => None end
  end.

(** [arr.splice(i, 1)] for an index found by findIndex. *)
Definition splice_remove (ls : list string) (i : nat) : list string :=
  take i ls ++ drop (S i) ls.

(** The start index of [arr.splice(start, 0, x)]: a negative start counts
    from the end (floored at 0), a start past the end is the length. *)
Definition splice_start (len : nat) (start : Z) : nat :=
  if (start <? 0)%Z then Z.to_nat (Z.max (Z.of_nat len + start) 0)
  else Z.to_nat (Z.min start (Z.of_nat len)).

(** [arr.splice(start, 0, x)]. *)
Definition splice_insert (ls : list string) (start : Z) (x : string) : list string :=
  let k := splice_start (List.length ls) start in
  take k ls ++ [x] ++ drop k ls.

(** [lists.map((l, index) => List.findByIdAndUpdate(l._id, { position: index }))]:
    the position written for each list. *)
Definition assign_positions (ls : list string) : list (string * nat) :=
  zip ls (seq 0 (List.length ls)).

(** The reorder of api.ts: [lists] are the board's list ids sorted by
    position, [listId] the moved list, [position] the requested one. *)
Definition reorder_api (lists : list string) (listId : string) (position : Z)
  : list (string * nat) :=
  let lists1 := match findIndex listId lists with
                | Some i => splice_remove lists i
                | None => lists
                end in
  let clampedPosition := Z.max 0 (Z.min position (Z.of_nat (List.length lists1))) in
  assign_positions (splice_insert lists1 clampedPosition listId).

(** The reorder of routes/lists.ts (the router mounted by api.ts): the
    same steps without the clamp. *)
Definition reorder_lists (lists : list string) (listId : string) (position : Z)
  : list (string * nat) :=
  let lists1 := match findIndex listId lists with
                | Some i => splice_remove lists i
                | None => lists
                end in
  assign_positions (splice_insert lists1 position listId).

(** The spec's index of the moved list: clamp(position, 0, n-1). *)
Definition clamp_index (n : nat) (position : Z) : Z :=
  Z.max 0 (Z.min position (Z.of_nat n - 1)).

(* ------------------------------------------------------------------ *)
(** ** Request parsing: [String.prototype.split], [trim], object spread *)

(** [s.split(sep)] for a one-character separator: the first field and
    the fields after it. *)
Fixpoint split_aux (sep : ascii) (s : string) : string * list string :=
  match s with
  | EmptyString => (EmptyString, [])
  | String c s' =>
      let '(w, ws) := split_aux sep s' in
      if Ascii.eqb c sep then (EmptyString, w :: ws) else (String c w, ws)
  end.

Definition js_split (sep : ascii) (s : string) : list string :=
  let '(w, ws) := split_aux sep s in w :: ws.

Fixpoint has_char (c : ascii) (s : string) : bool :=
  match s with
  | EmptyString => false
  | String d s' => Ascii.eqb d c || has_char c s'
  end.

(** [String.prototype.trim] on ASCII: tab, line feed, vertical tab, form
    feed, carriage return and space. *)
Definition is_js_space (c : ascii) : bool :=
  let n := nat_of_ascii c in (((9 <=? n) && (n <=? 13)) || (n =? 32))%nat.

Fixpoint trim_start (s : string) : string :=
  match s with
  | EmptyString => EmptyString
  | String c s' => if is_js_space c then trim_start s' else s
  end.

Fixpoint trim_end (s : string) : string :=
  match s with
  | EmptyString => EmptyString
  | String c s' =>
      let r := trim_end s' in
      if String.eqb r "" && is_js_space c then EmptyString else String c r
  end.

Definition js_trim (s : string) : string := trim_end (trim_start s).

(** A property of an object literal [{ ...body, k1: v1, ... }] (and of a
    parsed body with repeated keys): the last binding of the key. *)
Fixpoint obj_get (o : Body) (k : string) : option Json :=
  match o with
  | [] => None
  | (k', v) :: o' =>
      match obj_get o' k with
      | Some v' => Some v'
      | None => if String.eqb k' k then Some v else None
      end
  end.

(* ------------------------------------------------------------------ *)
(** ** Authentication: authMiddleware (part_000), the socket middleware
    (socketManager.ts) and getCredentials (routes/auth.ts) *)

(** [jwt.verify(token, secret)]: [None] when it throws (bad signature,
    expiry, malformed token), otherwise the [userId] claim of the payload
    ([None] when the payload has none). *)
Definition JwtVerify := string -> option (option string).

Inductive AuthOutcome :=
| AuthReject (code : nat) (message : string)
| AuthUser (userId : string).

(** authMiddleware: [req.headers.authorization?.split(' ')[1]] is the
    token; [req.user.userId] is [new ObjectId(decoded.userId)], kept as its
    canonical string. *)
Definition authMiddleware (verify : JwtVerify) (authorization : option string)
  : AuthOutcome :=
  let token := match authorization with
               | Some h => js_split " "%char h !! 1%nat
               | None => None
               end in
  match token with
  | None | Some EmptyString => AuthReject 401 "Authentication required"
  | Some tok =>
      match verify tok with
      | None => AuthReject 401 "Invalid token"
      | Some None => AuthReject 401 "Invalid token payload"
      | Some (Some uid) =>
          if String.eqb uid "" || negb (isValid uid)
          then AuthReject 401 "Invalid token payload"
          else AuthUser (oid_toString uid)
      end
  end.

Inductive SocketAuth :=
| SockReject (message : string)
| SockAccept (userId : option string).

(** The [io.use] middleware: [socket.data.userId = decoded.userId], with no
    check of that field. *)
Definition socket_auth (verify : JwtVerify) (token : option string) : SocketAuth :=
  match token with
  | None | Some EmptyString => SockReject "Authentication error: No token provided"
  | Some tok =>
      match verify tok with
      | None => SockReject "Authentication error: Invalid token"
      | Some userId => SockAccept userId
      end
  end.

(** getCredentials: [None] for the [null] result.  [b64decode] is
    [Buffer.from(x, 'base64').toString('utf8')] (it does not throw on a
    string); the header starts with ["Basic "], so its second field
    exists.  [const [email, password] = credentials.split(':')]: the
    password is [undefined] ([None]) without a colon. *)
Definition getCredentials (b64decode : string -> string) (authorization : option string)
  : option (string * option string) :=
  match authorization with
  | None => None
  | Some authHeader =>
      match strip_prefix "Basic " authHeader with
      | None => None
      | Some _ =>
          let base64Credentials := default "" (js_split " "%char authHeader !! 1%nat) in
          let credentials := b64decode base64Credentials in
          let '(email, rest) := split_aux ":"%char credentials in
          Some (email, rest !! 0%nat)
      end
  end.

(* ------------------------------------------------------------------ *)
(** ** CORS origin check of the Socket.IO server (part_003) *)

(** [getAllowedOrigins()]; [CLIENT_URL] is pushed when set and non-empty. *)
Definition getAllowedOrigins (client_url : option string) : list string :=
  ["http://localhost:3000"; "https://task-flow-web-tawny.vercel.app"]
  ++ match client_url with
     | Some u => if String.eqb u "" then [] else [u]
     | None => []
     end.

(** The part [.*\.vercel\.app$] of the regex, by backtracking: [.*]
    consumes characters other than line terminators, then the literal
    suffix must end the string. *)
Fixpoint vercel_tail (s : string) : bool :=
  String.eqb s ".vercel.app"
  || match s with
     | EmptyString => false
     | String c s' =>
         negb (Ascii.eqb c (ascii_of_nat 10)) && negb (Ascii.eqb c (ascii_of_nat 13))
         && vercel_tail s'
     end.

(** [origin.match(/^https:\/\/task-flow-web.*\.vercel\.app$/)]. *)
Definition vercel_origin (origin : string) : bool :=
  match strip_prefix "https://task-flow-web" origin with
  | Some rest => vercel_tail rest
  | None => false
  end.

(** The [origin] callback: [true] for [callback(null, true)]. *)
Definition cors_origin (client_url : option string) (origin : option string) : bool :=
  match origin with
  | None | Some EmptyString => true
  | Some o => existsb (String.eqb o) (getAllowedOrigins client_url) || vercel_origin o
  end.

(* ------------------------------------------------------------------ *)
(** ** initializePusher (part_002) *)

Record PusherEnv := mkPusherEnv {
  PUSHER_APP_ID : option string;
  PUSHER_KEY : option string;
  PUSHER_SECRET : option string;
  PUSHER_CLUSTER : option string
}.

Record PusherConfig := mkPusherConfig {
  cfg_appId : string;
  cfg_key : string;
  cfg_secret : string;
  cfg_cluster : string
}.

(** An environment variable as a JavaScript truthy string. *)
Definition env_truthy (v : option string) : option string :=
  match v with
  | Some s => if String.eqb s "" then None else Some s
  | None => None
  end.

(** The reads and the check of initializePusher: [None] when it throws. *)
Definition pusher_config (env : PusherEnv) : option PusherConfig :=
  let cluster := default "us2" (env_truthy (PUSHER_CLUSTER env)) in
  match env_truthy (PUSHER_APP_ID env), env_truthy (PUSHER_KEY env),
        env_truthy (PUSHER_SECRET env) with
  | Some appId, Some key, Some secret => Some (mkPusherConfig appId key secret cluster)
  | _, _, _ => None
  end.

(** [initializePusher()] on the module variable [pusher]; [mk] is
    [new Pusher(config)].  Returns the result and the new module state. *)
Definition initializePusher (mk : PusherConfig -> PusherClient)
  (pusher : option PusherClient) (env : PusherEnv)
  : Result PusherClient * option PusherClient :=
  match pusher with
  | Some p => (Ok p, Some p)
  | None =>
      match pusher_config env with
      | Some cfg => let p := mk cfg in (Ok p, Some p)
      | None => (Throw "Pusher configuration error: Missing environment variables", None)
      end
  end.

(** Successive calls, each in the environment of its time. *)
Fixpoint initializePusher_calls (mk : PusherConfig -> PusherClient)
  (pusher : option PusherClient) (envs : list PusherEnv)
  : list (Result PusherClient) * option PusherClient :=
  match envs with
  | [] => ([], pusher)
  | env :: envs' =>
      let step := initializePusher mk pusher env in
      let rest := initializePusher_calls mk step.2 envs' in
      (step.1 :: rest.1, rest.2)
  end.

(** The configuration of the first environment that has the three
    required variables. *)
Fixpoint first_pusher_config (envs : list PusherEnv) : option PusherConfig :=
  match envs with
  | [] => None
  | env :: envs' =>
      match pusher_config env with
      | Some cfg => Some cfg
      | None => first_pusher_config envs'
      end
  end.

(* ------------------------------------------------------------------ *)
(** ** Board routes (routes/boards.ts) *)

(** A handler's answer: an error status with its message, or the JSON
    document of the success path. *)
Inductive Reply (A : Type) :=
| RStatus (code : nat) (message : string)
| RBody (a : A).
Arguments RStatus {A} code message.
Arguments RBody {A} a.

(** [!board.members.includes(u) && board.createdBy.toString() !== u.toString()]
    (a MongooseArray compares ObjectIds by their string). *)
Definition board_access_denied (board : Board) (u : string) : bool :=
  negb (existsb (String.eqb u) board.(members)) && negb (String.eqb board.(createdBy) u).

(** GET /boards: [Board.find({ $or: [{ createdBy: u }, { members: u }] })]. *)
Definition boards_of_user (db : BoardDb) (u : string) : list Board :=
  List.filter (fun b => String.eqb b.(createdBy) u || existsb (String.eqb u) b.(members)) db.

(** GET /boards/:boardId (the lists and tasks sent along are left out).
    [Board.findById] of a string that is not an ObjectId fails with a
    CastError, answered by the catch block. *)
Definition get_board (db : BoardDb) (u boardId : string) : Reply Board :=
  if negb (isValid boardId) then RStatus 500 "Error fetching board details"
  else
    match findById db boardId with
    | None => RStatus 404 "Board not found"
    | Some board =>
        if board_access_denied board u then RStatus 403 "Access denied"
        else RBody board
    end.

(** Mongoose casts of a body value (a [null] is outside this model and
    taken as a failing cast). *)
Definition required_string (v : option Json) : Result string :=
  match v with
  | None | Some JNull => Throw "ValidationError"
  | Some j =>
      s <-- cast_string j ;;
      let s' := js_trim s in
      if String.eqb s' "" then Throw "ValidationError" else Ok s'
  end.

Definition optional_string (v : option Json) : Result string :=
  match v with
  | None | Some JNull => Ok ""
  | Some j => s <-- cast_string j ;; Ok (js_trim s)
  end.

Fixpoint cast_each {A} (cast : Json -> Result A) (vs : list Json) : Result (list A) :=
  match vs with
  | [] => Ok []
  | v :: vs' => x <-- cast v ;; xs <-- cast_each cast vs' ;; Ok (x :: xs)
  end.

(** An array path: absent is [[]], an array is cast element-wise, a single
    value is wrapped. *)
Definition cast_array {A} (cast : Json -> Result A) (v : option Json) : Result (list A) :=
  match v with
  | None => Ok []
  | Some (JArr vs) => cast_each cast vs
  | Some JNull => Throw "CastError"
  | Some j => x <-- cast j ;; Ok [x]
  end.

(** ** PUT /tasks/:taskId (part_006): the [$set] of the update *)

(** The first dot of a path: the head and the rest. *)
Fixpoint split_dot (s : string) : option (string * string) :=
  match s with
  | EmptyString => None
  | String c s' =>
      if Ascii.eqb c "."%char then Some (EmptyString, s')
      else match split_dot s' with
           | Some (h, r) => Some (String c h, r)
           | None => None
           end
  end.

(** A dotted path none of whose field names is empty. *)
Fixpoint dots_ok (after_dot : bool) (s : string) : bool :=
  match s with
  | EmptyString => negb after_dot
  | String c s' =>
      if Ascii.eqb c "."%char then negb after_dot && dots_ok true s'
      else dots_ok false s'
  end.

(** [$set] of [<array>.<seg>] on an array path that the document always
    has (a schema array defaults to [[]]), the value cast by Mongoose to
    the element type first:
    - a numeric segment [i]: the element [i] (set_nth);
    - [$[]]: every element;
    - [<i>.<fields>]: a field inside element [i]; MongoDB cannot create a
      field inside an existing ObjectId or string element and the update
      fails; past the end it pads the array and stores an embedded
      document at [i], which is not an element of the array's type and is
      kept as [""] here, as the padding nulls are;
    - any other segment (a name, an empty name, [$] without a matching
      query, [$[id]] without array filters): MongoDB refuses the update
      (it cannot create a named field inside an array). *)
Definition set_array_path (cast : Json -> Result string) (arr : list string)
  (seg : string) (v : Json) : Result (list string) :=
  match parse_index seg with
  | Some i => x <-- cast v ;; Ok (set_nth arr i x)
  | None =>
      if String.eqb seg "$[]" then x <-- cast v ;; Ok (map (fun _ => x) arr)
      else
        match split_dot seg with
        | Some (h, fields) =>
            match parse_index h with
            | Some i =>
                if dots_ok true fields then
                  _ <-- cast v ;;
                  if (i <? List.length arr)%nat then Throw "MongoServerError"
                  else Ok (set_nth arr i "")
                else Throw "MongoServerError"
            | None => Throw "MongoServerError"
            end
        | None => Throw "MongoServerError"
        end
  end.

(** A label: a string, trimmed by the schema's setter. *)
Definition cast_label (v : Json) : Result string := s <-- cast_string v ;; Ok (js_trim s).

(** One key of [{ $set: updateData }] after mongoose casting.  The keys
    handled are the paths of the model's fields and the dotted paths into
    its two arrays.  Any other key leaves the task as it is: a key that
    names no schema path is stripped by Mongoose's strict mode, and
    [dueDate], the timestamps, [_id] and dotted paths into the scalar
    fields are outside this model. *)
Definition set_path (t : Task) (kv : string * Json) : Result Task :=
  let '(k, v) := kv in
  if String.eqb k "title" then s <-- cast_string v ;;
    Ok {| task_title := s; task_description := t.(task_description);
          task_listId := t.(task_listId); task_assignedTo := t.(task_assignedTo);
          task_labels := t.(task_labels); task_position := t.(task_position) |}
  else if String.eqb k "description" then s <-- cast_string v ;;
    Ok {| task_title := t.(task_title); task_description := s;
          task_listId := t.(task_listId); task_assignedTo := t.(task_assignedTo);
          task_labels := t.(task_labels); task_position := t.(task_position) |}
  else if String.eqb k "listId" then l <-- cast_oid v ;;
    Ok {| task_title := t.(task_title); task_description := t.(task_description);
          task_listId := l; task_assignedTo := t.(task_assignedTo);
          task_labels := t.(task_labels); task_position := t.(task_position) |}
  else if String.eqb k "assignedTo" then
    match v with
    | JArr vs => xs <-- cast_oids vs ;;
        Ok {| task_title := t.(task_title); task_description := t.(task_description);
              task_listId := t.(task_listId); task_assignedTo := xs;
              task_labels := t.(task_labels); task_position := t.(task_position) |}
    | _ => Throw "CastError"
    end
  else if String.eqb k "labels" then ls <-- cast_array cast_label (Some v) ;;
    Ok {| task_title := t.(task_title); task_description := t.(task_description);
          task_listId := t.(task_listId); task_assignedTo := t.(task_assignedTo);
          task_labels := ls; task_position := t.(task_position) |}
  else if String.eqb k "position" then
    match v with
    | JNum z =>
        Ok {| task_title := t.(task_title); task_description := t.(task_description);
              task_listId := t.(task_listId); task_assignedTo := t.(task_assignedTo);
              task_labels := t.(task_labels); task_position := z |}
    | _ => Throw "CastError"
    end
  else
    match split_dot k with
    | Some (head, seg) =>
        if String.eqb head "assignedTo" then
          xs <-- set_array_path cast_oid t.(task_assignedTo) seg v ;;
          Ok {| task_title := t.(task_title); task_description := t.(task_description);
                task_listId := t.(task_listId); task_assignedTo := xs;
                task_labels := t.(task_labels); task_position := t.(task_position) |}
        else if String.eqb head "labels" then
          ls <-- set_array_path cast_label t.(task_labels) seg v ;;
          Ok {| task_title := t.(task_title); task_description := t.(task_description);
                task_listId := t.(task_listId); task_assignedTo := t.(task_assignedTo);
                task_labels := ls; task_position := t.(task_position) |}
        else Ok t
    | None => Ok t
    end.

Fixpoint apply_set (t : Task) (upd : Body) : Result Task :=
  match upd with
  | [] => Ok t
  | kv :: upd' => t' <-- set_path t kv ;; apply_set t' upd'
  end.

(** The write of PUT /tasks/:taskId once the permission checks passed:
    [Task.findByIdAndUpdate(taskId, { $set: updateData }, { new: true })]. *)
Definition put_task (t : Task) (body : Body) : Result Task :=
  apply_set t (strip_protected body).

(** The [save()] of [new Board({ ...req.body, createdBy: u, members: [u] })]
    (schema of models/Board.ts: title required and trimmed, description
    trimmed): the document, or the ValidationError that collects the
    failing paths (cast failures included).  [newId] is the generated
    [_id]. *)
Definition new_board (body : Body) (u newId : string) : Result Board :=
  let doc := app body [("createdBy", JStr u); ("members", JArr [JStr u])] in
  match (_ <-- required_string (obj_get doc "title") ;;
         _ <-- optional_string (obj_get doc "description") ;;
         c <-- match obj_get doc "createdBy" with
               | Some v => cast_oid v
               | None => Throw "ValidationError"
               end ;;
         ms <-- cast_array cast_oid (obj_get doc "members") ;;
         Ok (mkBoard newId c ms)) with
  | Ok b => Ok b
  | Throw _ => Throw "ValidationError"
  end.

(** POST /boards: the answer to a board that saves, and the 400 of the
    catch block to a ValidationError. *)
Definition create_board (body : Body) (u newId : string) : Reply Board :=
  match new_board body u newId with
  | Ok b => RBody b
  | Throw _ => RStatus 400 "Invalid board data"
  end.

(** [board.save()]: the stored document with that id is replaced. *)
Definition save_board (db : BoardDb) (b' : Board) : BoardDb :=
  map (fun b => if String.eqb b.(board_id) b'.(board_id) then b' else b) db.

(** POST /boards/:boardId/members with body field [userId] ([None] when
    absent).  Every error of the handler is answered 400 by its catch
    block: the CastError of [findById] on a malformed board id and the
    throw of [new ObjectId(userId)] on a malformed user id.
    [new ObjectId(undefined)] does not throw: it generates the fresh id
    [fresh]. *)
Definition add_member (db : BoardDb) (u boardId : string) (userId : option string)
  (fresh : string) : Reply Board :=
  if negb (isValid boardId) then RStatus 400 "Error adding member"
  else
    match findById db boardId with
    | None => RStatus 404 "Board not found"
    | Some board =>
        if negb (String.eqb board.(createdBy) u) then RStatus 403 "Access denied"
        else
          let memberId := match userId with
                          | None => Ok fresh
                          | Some s => if isValid s then Ok (oid_toString s)
                                      else Throw "BSONError"
                          end in
          match memberId with
          | Throw _ => RStatus 400 "Error adding member"
          | Ok m =>
              if existsb (fun x => String.eqb x m) board.(members)
              then RStatus 400 "User is already a member"
              else RBody (mkBoard board.(board_id) board.(createdBy) (board.(members) ++ [m]))
          end
    end.

(** DELETE /boards/:boardId/members/:userId. *)
Definition remove_member_route (db : BoardDb) (u boardId userId : string) : Reply Board :=
  if negb (isValid boardId) then RStatus 400 "Error removing member"
  else
    match findById db boardId with
    | None => RStatus 404 "Board not found"
    | Some board =>
        if negb (String.eqb board.(createdBy) u) then RStatus 403 "Access denied"
        else if negb (isValid userId) then RStatus 400 "Error removing member"
        else
          match findIndex (oid_toString userId) board.(members) with
          | None => RStatus 404 "Member not found"
          | Some i =>
              RBody (mkBoard board.(board_id) board.(createdBy)
                       (splice_remove board.(members) i))
          end
    end.

(* ------------------------------------------------------------------ *)
(** ** Task routes (routes/lists.ts, routes/tasks.ts) *)

Definition set_assignees (t : Task) (xs : list string) : Task :=
  {| task_title := t.(task_title); task_description := t.(task_description);
     task_listId := t.(task_listId); task_assignedTo := xs;
     task_labels := t.(task_labels); task_position := t.(task_position) |}.

(** POST /tasks/:taskId/users/:userId, once the task, its list and its
    board are found (404 otherwise); the catch block answers 500. *)
Definition assign_task_member (board : Board) (t : Task) (u userId : string) : Reply Task :=
  if board_access_denied board u then RStatus 403 "Access denied"
  else if negb (isValid userId) then RStatus 500 "Error assigning user to task"
  else
    let assigneeId := oid_toString userId in
    if board_access_denied board assigneeId
    then RStatus 400 "Member must be a board member to be assigned to a task"
    else if existsb (fun id => String.eqb id assigneeId) t.(task_assignedTo)
    then RStatus 400 "Member is already assigned to this task"
    else RBody (set_assignees t (t.(task_assignedTo) ++ [assigneeId])).

(** DELETE /tasks/:taskId/users/:userId, after the same lookups. *)
Definition unassign_task_member (board : Board) (t : Task) (u userId : string) : Reply Task :=
  if board_access_denied board u then RStatus 403 "Access denied"
  else if negb (isValid userId) then RStatus 500 "Error unassigning user from task"
  else
    match findIndex (oid_toString userId) t.(task_assignedTo) with
    | None => RStatus 404 "Member is not assigned to this task"
    | Some i => RBody (set_assignees t (splice_remove t.(task_assignedTo) i))
    end.

(** [new Task(doc)] and [save()] with the schema of models/Task.ts
    (part_005): title required and trimmed, description trimmed, listId an
    ObjectId, assignedTo ObjectIds, labels trimmed strings, position a
    number; [createdBy] is not a path and is dropped.  [dueDate] is not
    modelled. *)
Definition build_task (doc : Body) : Result Task :=
  title <-- required_string (obj_get doc "title") ;;
  description <-- optional_string (obj_get doc "description") ;;
  listId <-- match obj_get doc "listId" with
             | Some v => cast_oid v
             | None => Throw "ValidationError"
             end ;;
  assignedTo <-- cast_array cast_oid (obj_get doc "assignedTo") ;;
  labels <-- cast_array (fun v => s <-- cast_string v ;; Ok (js_trim s))
               (obj_get doc "labels") ;;
  position <-- match obj_get doc "position" with
               | Some (JNum z) => Ok z
               | _ => Throw "ValidationError"
               end ;;
  Ok (mkTask title description listId assignedTo labels position).

(** The [save()] of [new Task({ ...req.body, listId, position, createdBy })]
    in POST /lists/:listId/tasks: [lastPosition] is the position of
    [Task.findOne({ listId }).sort('-position')]. *)
Definition new_task (body : Body) (listId : string) (lastPosition : option Z)
  (u : string) : Result Task :=
  let position := match lastPosition with Some p => (p + 1)%Z | None => 0%Z end in
  let doc := app body [("listId", JStr listId); ("position", JNum position);
                      ("createdBy", JStr u)] in
  match build_task doc with
  | Ok t => Ok t
  | Throw _ => Throw "ValidationError"
  end.

(** POST /lists/:listId/tasks once the list and its board are found. *)
Definition create_task (board : Board) (body : Body) (listId : string)
  (lastPosition : option Z) (u : string) : Reply Task :=
  if board_access_denied board u then RStatus 403 "Access denied"
  else
    match new_task body listId lastPosition u with
    | Ok t => RBody t
    | Throw _ => RStatus 400 "Invalid task data"
    end.

(** A list document: its id and its board. *)
Record ListDoc := mkList {
  list_id : string;
  list_boardId : string
}.

(** The task collection: id and document. *)
Definition TaskStore := list (string * Task).

Definition findTask (ts : TaskStore) (taskId : string) : option Task :=
  option_map snd (List.find (fun p => String.eqb p.1 (oid_toString taskId)) ts).

Definition findList (ls : list ListDoc) (listId : string) : option ListDoc :=
  List.find (fun l => String.eqb l.(list_id) (oid_toString listId)) ls.

(** [Task.countDocuments({ listId })]. *)
Definition countDocuments (ts : TaskStore) (listId : string) : nat :=
  List.length (List.filter (fun p => String.eqb p.2.(task_listId) listId) ts).

Definition set_list_position (t : Task) (listId : string) (position : Z) : Task :=
  {| task_title := t.(task_title); task_description := t.(task_description);
     task_listId := listId; task_assignedTo := t.(task_assignedTo);
     task_labels := t.(task_labels); task_position := position |}.

(** [task.save()]. *)
Definition save_task (ts : TaskStore) (taskId : string) (t' : Task) : TaskStore :=
  map (fun p => if String.eqb p.1 taskId then (p.1, t') else p) ts.

(** PUT /tasks/:taskId/lists/:listId: the answer and the task collection
    afterwards.  Casts of malformed ids fail in the queries and reach the
    catch block (500). *)
Definition move_task_to_list (db : BoardDb) (ls : list ListDoc) (ts : TaskStore)
  (u taskId listId : string) : Reply Task * TaskStore :=
  if negb (isValid taskId) then (RStatus 500 "Error moving task to list", ts)
  else
    match findTask ts taskId with
    | None => (RStatus 404 "Task not found", ts)
    | Some task =>
        match findList ls task.(task_listId) with
        | None => (RStatus 404 "Source list not found", ts)
        | Some sourceList =>
            match findById db sourceList.(list_boardId) with
            | None => (RStatus 404 "Source board not found", ts)
            | Some sourceBoard =>
                if negb (isValid listId) then (RStatus 500 "Error moving task to list", ts)
                else
                  match findList ls listId with
                  | None => (RStatus 404 "Target list not found", ts)
                  | Some targetList =>
                      if negb (String.eqb sourceList.(list_boardId) targetList.(list_boardId))
                      then (RStatus 400 "Cannot move task between different boards", ts)
                      else if board_access_denied sourceBoard u
                      then (RStatus 403 "Access denied", ts)
                      else if String.eqb task.(task_listId) listId then (RBody task, ts)
                      else
                        let tasksInTargetList := countDocuments ts targetList.(list_id) in
                        let task' := set_list_position task (oid_toString listId)
                                       (Z.of_nat tasksInTargetList) in
                        (RBody task', save_task ts (oid_toString taskId) task')
                  end
            end
        end
    end.

(* ------------------------------------------------------------------ *)
(** ** The REST mutation handlers as programs (routes/boards.ts,
    routes/lists.ts, routes/tasks.ts, the routers api.ts mounts) *)

(** The persisted collections: boards, lists with their positions, and
    tasks with their ids. *)
Record Store := mkStore {
  st_boards : BoardDb;
  st_lists : list (ListDoc * Z);
  st_tasks : TaskStore
}.

Definition set_boards (st : Store) (db : BoardDb) : Store :=
  mkStore db st.(st_lists) st.(st_tasks).
Definition set_lists (st : Store) (ls : list (ListDoc * Z)) : Store :=
  mkStore st.(st_boards) ls st.(st_tasks).
Definition set_tasks (st : Store) (ts : TaskStore) : Store :=
  mkStore st.(st_boards) st.(st_lists) ts.

(** A request as a handler sees it: [req.user.userId] (the ObjectId that
    authMiddleware built, as its canonical string), the route parameters
    ([""] where the route has none), the body, and the [_id] that a
    [new Model(...)] in the handler generates. *)
Record Request := mkRequest {
  req_user : string;
  req_boardId : string;
  req_listId : string;
  req_taskId : string;
  req_userId : string;
  req_body : Body;
  req_fresh : string
}.

(** Effects a handler performs, in order. *)
Inductive Effect :=
| DbRead (what : string)
| DbWrite (what : string)
| Respond (code : nat)
| Emit (k : EventKind).

Definition is_emit (e : Effect) : bool :=
  match e with Emit _ => true | _ => false end.

Definition emit_count (es : list Effect) : nat := List.length (List.filter is_emit es).

(** A handler step: from the store, the store after it, the effects it
    performed and its value, or the error that goes to the [catch]. *)
Definition HM (A : Type) : Type := Store -> Store * list Effect * Result A.

Definition retH {A} (a : A) : HM A := fun st => (st, [], Ok a).

Definition bindH {A B} (m : HM A) (k : A -> HM B) : HM B :=
  fun st =>
    match m st with
    | (st1, es1, Ok a) => let '(st2, es2, r) := k a st1 in (st2, app es1 es2, r)
    | (st1, es1, Throw e) => (st1, es1, Throw e)
    end.

Notation "x <~ m ;; k" := (bindH m (fun x => k))
  (at level 100, m at next level, right associativity).

(** A synchronous step that may throw (e.g. [new ObjectId(s)]). *)
Definition liftR {A} (r : Result A) : HM A := fun st => (st, [], r).

(** An awaited query. *)
Definition query {A} (what : string) (q : Store -> Result A) : HM A :=
  fun st => (st, [DbRead what], q st).

(** An awaited write: the store it leaves, or its error. *)
Definition write (what : string) (w : Store -> Result Store) : HM unit :=
  fun st =>
    match w st with
    | Ok st' => (st', [DbWrite what], Ok tt)
    | Throw e => (st, [DbWrite what], Throw e)
    end.

(** [res.json(...)] or [res.status(code).json(...)]. *)
Definition respond (code : nat) : HM unit := fun st => (st, [Respond code], Ok tt).

(** [try { m } catch (error) { h(error) }]. *)
Definition catchH (m : HM unit) (h : string -> HM unit) : HM unit :=
  fun st =>
    match m st with
    | (st1, es1, Throw e) => let '(st2, es2, r) := h e st1 in (st2, app es1 es2, r)
    | res => res
    end.

(** [await Promise.all(xs.map(x => Model.findByIdAndUpdate(...)))], the
    updates taken one after the other. *)
Fixpoint write_each {A} (what : string) (w : A -> Store -> Result Store) (xs : list A)
  : HM unit :=
  match xs with
  | [] => retH tt
  | x :: xs' => _ <~ write what (w x) ;; write_each what w xs'
  end.

(** The catch blocks: a ValidationError answered 400, anything else [code]. *)
Definition validation_or (code : nat) (e : string) : HM unit :=
  if String.eqb e "ValidationError" then respond 400 else respond code.

(** The cast of [findById(id)]: a string that is not an ObjectId fails. *)
Definition cast_id (id : string) : Result string :=
  if isValid id then Ok (oid_toString id) else Throw "CastError".

(** [new mongoose.Types.ObjectId(s)] for a string. *)
Definition new_objectid (s : string) : Result string :=
  if isValid s then Ok (oid_toString s) else Throw "BSONError".

(** [new mongoose.Types.ObjectId(userId)] for the [userId] of a body:
    [undefined] or [null] generates a fresh id, and so does a number (an id
    with that timestamp); here [fresh]. *)
Definition new_objectid_json (v : option Json) (fresh : string) : Result string :=
  match v with
  | None | Some JNull | Some (JNum _) => Ok fresh
  | Some (JStr s) => new_objectid s
  | Some (JArr _) => Throw "BSONError"
  end.

Definition boardById (id : string) : HM (option Board) :=
  query "Board.findById" (fun st => _ <-- cast_id id ;; Ok (findById st.(st_boards) id)).

Definition listById (id : string) : HM (option ListDoc) :=
  query "List.findById"
    (fun st => _ <-- cast_id id ;; Ok (findList (map fst st.(st_lists)) id)).

Definition taskById (id : string) : HM (option Task) :=
  query "Task.findById" (fun st => _ <-- cast_id id ;; Ok (findTask st.(st_tasks) id)).

(** A stable sort by a key ([.sort('position')]). *)
Fixpoint insert_by {A} (key : A -> Z) (x : A) (l : list A) : list A :=
  match l with
  | [] => [x]
  | y :: l' => if (key x <? key y)%Z then x :: l else y :: insert_by key x l'
  end.

Definition sort_by {A} (key : A -> Z) (l : list A) : list A :=
  fold_left (fun acc x => insert_by key x acc) l [].

(** [List.find({ boardId }).sort('position')]: the ids. *)
Definition lists_of_board (ls : list (ListDoc * Z)) (boardId : string) : list string :=
  map (fun p => p.1.(list_id))
    (sort_by snd (List.filter (fun p => String.eqb p.1.(list_boardId) boardId) ls)).

(** [Task.find({ listId }).sort('position')]: the ids. *)
Definition tasks_of_list (ts : TaskStore) (listId : string) : list string :=
  map fst (sort_by (fun p => p.2.(task_position))
             (List.filter (fun p => String.eqb p.2.(task_listId) listId) ts)).

(** [findOne({ listId }).sort('-position')], its position. *)
Definition last_task_position (ts : TaskStore) (listId : string) : option Z :=
  match rev (sort_by (fun p => p.2.(task_position))
               (List.filter (fun p => String.eqb p.2.(task_listId) listId) ts)) with
  | p :: _ => Some p.2.(task_position)
  | [] => None
  end.

(** [List.findOne({ boardId }).sort('-position')], its position. *)
Definition last_list_position (ls : list (ListDoc * Z)) (boardId : string) : option Z :=
  match rev (sort_by snd (List.filter (fun p => String.eqb p.1.(list_boardId) boardId) ls)) with
  | p :: _ => Some p.2
  | [] => None
  end.

(** The [save()] of [new List({ ...req.body, boardId, position })]
    (schema of models/List.ts: title required and trimmed). *)
Definition new_list (body : Body) (boardId newId : string) : Result ListDoc :=
  match required_string (obj_get body "title") with
  | Ok _ => Ok (mkList newId boardId)
  | Throw _ => Throw "ValidationError"
  end.

(** One key of [{ $set: req.body }] on a board, after Mongoose's casts.
    Any other key leaves [createdBy] and [members] as they are: a key that
    names no schema path is stripped by strict mode, and [_id], the
    timestamps and dotted paths into the scalar fields are outside this
    model. *)
Definition board_set_path (b : Board) (kv : string * Json) : Result Board :=
  let '(k, v) := kv in
  if String.eqb k "createdBy" then c <-- cast_oid v ;; Ok (mkBoard b.(board_id) c b.(members))
  else if String.eqb k "members" then
    ms <-- cast_array cast_oid (Some v) ;; Ok (mkBoard b.(board_id) b.(createdBy) ms)
  else if String.eqb k "title" || String.eqb k "description" then
    _ <-- cast_string v ;; Ok b
  else
    match split_dot k with
    | Some (head, seg) =>
        if String.eqb head "members" then
          ms <-- set_array_path cast_oid b.(members) seg v ;;
          Ok (mkBoard b.(board_id) b.(createdBy) ms)
        else Ok b
    | None => Ok b
    end.

Fixpoint apply_board_set (b : Board) (upd : Body) : Result Board :=
  match upd with
  | [] => Ok b
  | kv :: upd' => b' <-- board_set_path b kv ;; apply_board_set b' upd'
  end.

(** [Board.findByIdAndUpdate(boardId, { $set: req.body }, { new: true })]. *)
Definition update_board (db : BoardDb) (boardId : string) (body : Body) : Result BoardDb :=
  match findById db boardId with
  | None => Ok db
  | Some b => b' <-- apply_board_set b body ;; Ok (save_board db b')
  end.

(** One key of [{ $set: req.body }] on a list: [boardId] is the one
    modelled path; any other key leaves it (and the position) as they
    are, as in [board_set_path]. *)
Definition list_set_path (l : ListDoc) (kv : string * Json) : Result ListDoc :=
  let '(k, v) := kv in
  if String.eqb k "boardId" then b <-- cast_oid v ;; Ok (mkList l.(list_id) b)
  else if String.eqb k "title" then _ <-- cast_string v ;; Ok l
  else Ok l.

(** [List.findByIdAndUpdate(listId, { $set: req.body }, { new: true })];
    a numeric [position] key is written too. *)
Definition update_list (ls : list (ListDoc * Z)) (listId : string) (body : Body)
  : Result (list (ListDoc * Z)) :=
  let id := oid_toString listId in
  let fix go (ls : list (ListDoc * Z)) : Result (list (ListDoc * Z)) :=
    match ls with
    | [] => Ok []
    | (l, p) :: ls' =>
        rest <-- go ls' ;;
        if String.eqb l.(list_id) id then
          l' <-- fold_left (fun acc kv => x <-- acc ;; list_set_path x kv) body (Ok l) ;;
          p' <-- match obj_get body "position" with
                 | None => Ok p
                 | Some (JNum z) => Ok z
                 | Some _ => Throw "CastError"
                 end ;;
          Ok ((l', p') :: rest)
        else Ok ((l, p) :: rest)
    end in
  go ls.

(** [Task.findByIdAndUpdate(taskId, { $set: updateData }, { new: true })]. *)
Definition update_task (ts : TaskStore) (taskId : string) (upd : Body) : Result TaskStore :=
  match findTask ts taskId with
  | None => Ok ts
  | Some t => t' <-- apply_set t upd ;; Ok (save_task ts (oid_toString taskId) t')
  end.

(** [const { assignedTo, position, listId, ...updateData } = req.body] of
    routes/tasks.ts. *)
Definition strip_task_update (body : Body) : Body :=
  List.filter
    (fun kv => negb (String.eqb kv.1 "assignedTo" || String.eqb kv.1 "position"
                     || String.eqb kv.1 "listId"))
    body.

(** The [listId] of the body of PUT /tasks/:taskId/position when truthy;
    a truthy value that is not a string fails in [List.findById]. *)
Definition body_listId (v : option Json) : Result (option string) :=
  match v with
  | None | Some JNull => Ok None
  | Some (JStr s) => Ok (if String.eqb s "" then None else Some s)
  | Some (JNum z) => if Z.eqb z 0 then Ok None else Throw "CastError"
  | Some (JArr _) => Throw "CastError"
  end.

Definition set_list_pos (ls : list (ListDoc * Z)) (id : string) (pos : Z)
  : list (ListDoc * Z) :=
  map (fun p => if String.eqb p.1.(list_id) id then (p.1, pos) else p) ls.

Definition set_task_pos (ts : TaskStore) (id listId : string) (pos : Z) : TaskStore :=
  map (fun p => if String.eqb p.1 id then (p.1, set_list_position p.2 listId pos) else p) ts.

(** POST /boards. *)
Definition post_boards (r : Request) : HM unit :=
  catchH
    (_ <~ write "board.save"
            (fun st => b <-- new_board r.(req_body) r.(req_user) r.(req_fresh) ;;
                       Ok (set_boards st (app st.(st_boards) [b]))) ;;
     respond 201)
    (validation_or 500).

(** PUT /boards/:boardId. *)
Definition put_boards (r : Request) : HM unit :=
  catchH
    (board <~ boardById r.(req_boardId) ;;
     match board with
     | None => respond 404
     | Some board =>
         if negb (String.eqb board.(createdBy) r.(req_user)) then respond 403
         else
           _ <~ write "Board.findByIdAndUpdate"
                  (fun st => db' <-- update_board st.(st_boards) r.(req_boardId) r.(req_body) ;;
                             Ok (set_boards st db')) ;;
           respond 200
     end)
    (validation_or 500).

(** DELETE /boards/:boardId. *)
Definition delete_boards (r : Request) : HM unit :=
  catchH
    (board <~ boardById r.(req_boardId) ;;
     match board with
     | None => respond 404
     | Some board =>
         if negb (String.eqb board.(createdBy) r.(req_user)) then respond 403
         else
           lists <~ query "List.find"
                      (fun st => Ok (lists_of_board st.(st_lists) board.(board_id))) ;;
           _ <~ write "Task.deleteMany"
                  (fun st => Ok (set_tasks st
                       (List.filter (fun p => negb (existsb (String.eqb p.2.(task_listId)) lists))
                          st.(st_tasks)))) ;;
           _ <~ write "List.deleteMany"
                  (fun st => Ok (set_lists st
                       (List.filter (fun p => negb (String.eqb p.1.(list_boardId) board.(board_id)))
                          st.(st_lists)))) ;;
           _ <~ write "board.deleteOne"
                  (fun st => Ok (set_boards st
                       (List.filter (fun b => negb (String.eqb b.(board_id) board.(board_id)))
                          st.(st_boards)))) ;;
           respond 200
     end)
    (fun _ => respond 500).

(** POST /boards/:boardId/members. *)
Definition post_board_members (r : Request) : HM unit :=
  catchH
    (board <~ boardById r.(req_boardId) ;;
     match board with
     | None => respond 404
     | Some board =>
         if negb (String.eqb board.(createdBy) r.(req_user)) then respond 403
         else
           memberId <~ liftR (new_objectid_json (obj_get r.(req_body) "userId") r.(req_fresh)) ;;
           if existsb (fun m => String.eqb m memberId) board.(members) then respond 400
           else
             _ <~ write "board.save"
                    (fun st => Ok (set_boards st (save_board st.(st_boards)
                         (mkBoard board.(board_id) board.(createdBy)
                            (app board.(members) [memberId]))))) ;;
             respond 200
     end)
    (fun _ => respond 400).

(** DELETE /boards/:boardId/members/:userId. *)
Definition delete_board_member (r : Request) : HM unit :=
  catchH
    (board <~ boardById r.(req_boardId) ;;
     match board with
     | None => respond 404
     | Some board =>
         if negb (String.eqb board.(createdBy) r.(req_user)) then respond 403
         else
           memberId <~ liftR (new_objectid r.(req_userId)) ;;
           match findIndex memberId board.(members) with
           | None => respond 404
           | Some memberIndex =>
               _ <~ write "board.save"
                      (fun st => Ok (set_boards st (save_board st.(st_boards)
                           (mkBoard board.(board_id) board.(createdBy)
                              (splice_remove board.(members) memberIndex))))) ;;
               respond 200
           end
     end)
    (fun _ => respond 400).

(** POST /boards/:boardId/lists. *)
Definition post_board_lists (r : Request) : HM unit :=
  catchH
    (board <~ boardById r.(req_boardId) ;;
     match board with
     | None => respond 404
     | Some board =>
         if board_access_denied board r.(req_user) then respond 403
         else
           lastList <~ query "List.findOne"
                         (fun st => Ok (last_list_position st.(st_lists) board.(board_id))) ;;
           let position := match lastList with Some p => (p + 1)%Z | None => 0%Z end in
           _ <~ write "list.save"
                  (fun st => l <-- new_list r.(req_body) board.(board_id) r.(req_fresh) ;;
                             Ok (set_lists st (app st.(st_lists) [(l, position)]))) ;;
           respond 201
     end)
    (validation_or 500).

(** PUT /lists/:listId. *)
Definition put_lists (r : Request) : HM unit :=
  catchH
    (list <~ listById r.(req_listId) ;;
     match list with
     | None => respond 404
     | Some list =>
         board <~ boardById list.(list_boardId) ;;
         match board with
         | None => respond 404
         | Some board =>
             if board_access_denied board r.(req_user) then respond 403
             else
               _ <~ write "List.findByIdAndUpdate"
                      (fun st => ls' <-- update_list st.(st_lists) r.(req_listId) r.(req_body) ;;
                                 Ok (set_lists st ls')) ;;
               respond 200
         end
     end)
    (validation_or 500).

(** DELETE /lists/:listId. *)
Definition delete_lists (r : Request) : HM unit :=
  catchH
    (list <~ listById r.(req_listId) ;;
     match list with
     | None => respond 404
     | Some list =>
         board <~ boardById list.(list_boardId) ;;
         match board with
         | None => respond 404
         | Some board =>
             if board_access_denied board r.(req_user) then respond 403
             else
               _ <~ write "Task.deleteMany"
                      (fun st => Ok (set_tasks st
                           (List.filter (fun p => negb (String.eqb p.2.(task_listId) list.(list_id)))
                              st.(st_tasks)))) ;;
               _ <~ write "list.deleteOne"
                      (fun st => Ok (set_lists st
                           (List.filter (fun p => negb (String.eqb p.1.(list_id) list.(list_id)))
                              st.(st_lists)))) ;;
               respond 200
         end
     end)
    (fun _ => respond 500).

(** PUT /lists/:listId/position. *)
Definition put_list_position (r : Request) : HM unit :=
  catchH
    (match obj_get r.(req_body) "position" with
     | Some (JNum position) =>
         list <~ listById r.(req_listId) ;;
         match list with
         | None => respond 404
         | Some list =>
             board <~ boardById list.(list_boardId) ;;
             match board with
             | None => respond 404
             | Some board =>
                 if board_access_denied board r.(req_user) then respond 403
                 else
                   lists <~ query "List.find"
                              (fun st => Ok (lists_of_board st.(st_lists) board.(board_id))) ;;
                   _ <~ write_each "List.findByIdAndUpdate"
                          (fun p st => Ok (set_lists st
                               (set_list_pos st.(st_lists) p.1 (Z.of_nat p.2))))
                          (reorder_lists lists list.(list_id) position) ;;
                   respond 200
             end
         end
     | _ => respond 400
     end)
    (fun _ => respond 500).

(** POST /lists/:listId/tasks. *)
Definition post_list_tasks (r : Request) : HM unit :=
  catchH
    (list <~ listById r.(req_listId) ;;
     match list with
     | None => respond 404
     | Some list =>
         board <~ boardById list.(list_boardId) ;;
         match board with
         | None => respond 404
         | Some board =>
             if board_access_denied board r.(req_user) then respond 403
             else
               lastTask <~ query "Task.findOne"
                             (fun st => Ok (last_task_position st.(st_tasks) list.(list_id))) ;;
               _ <~ write "task.save"
                      (fun st => t <-- new_task r.(req_body) list.(list_id) lastTask r.(req_user) ;;
                                 Ok (set_tasks st (app st.(st_tasks) [(r.(req_fresh), t)]))) ;;
               respond 201
         end
     end)
    (validation_or 500).

(** The lookups that open every task handler: the task, its list, its
    board; [k] runs once all three are found. *)
Definition with_task_board (r : Request) (k : Task -> ListDoc -> Board -> HM unit)
  : HM unit :=
  task <~ taskById r.(req_taskId) ;;
  match task with
  | None => respond 404
  | Some task =>
      list <~ listById task.(task_listId) ;;
      match list with
      | None => respond 404
      | Some list =>
          board <~ boardById list.(list_boardId) ;;
          match board with
          | None => respond 404
          | Some board => k task list board
          end
      end
  end.

(** POST /tasks/:taskId/users/:userId. *)
Definition post_task_users (r : Request) : HM unit :=
  catchH
    (with_task_board r (fun task _ board =>
       if board_access_denied board r.(req_user) then respond 403
       else
         assigneeId <~ liftR (new_objectid r.(req_userId)) ;;
         if board_access_denied board assigneeId then respond 400
         else if existsb (fun id => String.eqb id assigneeId) task.(task_assignedTo)
         then respond 400
         else
           _ <~ write "task.save"
                  (fun st => Ok (set_tasks st (save_task st.(st_tasks) (oid_toString r.(req_taskId))
                       (set_assignees task (app task.(task_assignedTo) [assigneeId]))))) ;;
           respond 200))
    (fun _ => respond 500).

(** DELETE /tasks/:taskId/users/:userId. *)
Definition delete_task_users (r : Request) : HM unit :=
  catchH
    (with_task_board r (fun task _ board =>
       if board_access_denied board r.(req_user) then respond 403
       else
         assigneeId <~ liftR (new_objectid r.(req_userId)) ;;
         match findIndex assigneeId task.(task_assignedTo) with
         | None => respond 404
         | Some assigneeIndex =>
             _ <~ write "task.save"
                    (fun st => Ok (set_tasks st (save_task st.(st_tasks) (oid_toString r.(req_taskId))
                         (set_assignees task (splice_remove task.(task_assignedTo) assigneeIndex))))) ;;
             respond 200
         end))
    (fun _ => respond 500).

(** PUT /tasks/:taskId. *)
Definition put_tasks (r : Request) : HM unit :=
  catchH
    (with_task_board r (fun _ _ board =>
       if board_access_denied board r.(req_user) then respond 403
       else
         _ <~ write "Task.findByIdAndUpdate"
                (fun st => ts' <-- update_task st.(st_tasks) r.(req_taskId)
                                     (strip_task_update r.(req_body)) ;;
                           Ok (set_tasks st ts')) ;;
         respond 200))
    (validation_or 500).

(** DELETE /tasks/:taskId. *)
Definition delete_tasks (r : Request) : HM unit :=
  catchH
    (with_task_board r (fun _ _ board =>
       if board_access_denied board r.(req_user) then respond 403
       else
         _ <~ write "task.deleteOne"
                (fun st => Ok (set_tasks st
                     (List.filter (fun p => negb (String.eqb p.1 (oid_toString r.(req_taskId))))
                        st.(st_tasks)))) ;;
         respond 200))
    (fun _ => respond 500).

(** PUT /tasks/:taskId/position. *)
Definition put_task_position (r : Request) : HM unit :=
  catchH
    (listId <~ liftR (body_listId (obj_get r.(req_body) "listId")) ;;
     match obj_get r.(req_body) "position" with
     | Some (JNum position) =>
         task <~ taskById r.(req_taskId) ;;
         match task with
         | None => respond 404
         | Some task =>
             sourceList <~ listById task.(task_listId) ;;
             targetList <~ match listId with
                           | Some id => listById id
                           | None => retH sourceList
                           end ;;
             match sourceList, targetList with
             | Some sourceList, Some targetList =>
                 board <~ boardById sourceList.(list_boardId) ;;
                 match board with
                 | Some board =>
                     if negb (String.eqb targetList.(list_boardId) board.(board_id))
                     then respond 404
                     else if board_access_denied board r.(req_user) then respond 403
                     else
                       tasks <~ query "Task.find"
                                  (fun st => Ok (tasks_of_list st.(st_tasks) targetList.(list_id))) ;;
                       _ <~ write_each "Task.findByIdAndUpdate"
                              (fun p st => Ok (set_tasks st
                                   (set_task_pos st.(st_tasks) p.1 targetList.(list_id)
                                      (Z.of_nat p.2))))
                              (reorder_lists tasks (oid_toString r.(req_taskId)) position) ;;
                       respond 200
                 | None => respond 404
                 end
             | _, _ => respond 404
             end
         end
     | _ => respond 400
     end)
    (fun _ => respond 500).

(** PUT /tasks/:taskId/lists/:listId. *)
Definition put_task_lists (r : Request) : HM unit :=
  catchH
    (with_task_board r (fun task sourceList sourceBoard =>
       targetList <~ listById r.(req_listId) ;;
       match targetList with
       | None => respond 404
       | Some targetList =>
           if negb (String.eqb sourceList.(list_boardId) targetList.(list_boardId))
           then respond 400
           else if board_access_denied sourceBoard r.(req_user) then respond 403
           else if String.eqb task.(task_listId) r.(req_listId) then respond 200
           else
             tasksInTargetList <~ query "Task.countDocuments"
                                    (fun st => Ok (countDocuments st.(st_tasks) targetList.(list_id))) ;;
             _ <~ write "task.save"
                    (fun st => Ok (set_tasks st (save_task st.(st_tasks) (oid_toString r.(req_taskId))
                         (set_list_position task (oid_toString r.(req_listId))
                            (Z.of_nat tasksInTargetList))))) ;;
             respond 200
       end))
    (fun _ => respond 500).

Inductive Mutation :=
| BoardCreate | BoardUpdate | BoardDelete | MemberAdd | MemberRemove
| ListCreate | ListUpdate | ListDelete | ListReorder
| TaskCreate | TaskUpdate | TaskDelete | TaskReorder
| TaskAssign | TaskUnassign | TaskMove.

(** The handler of each mutation route. *)
Definition handler (m : Mutation) : Request -> HM unit :=
  match m with
  | BoardCreate => post_boards
  | BoardUpdate => put_boards
  | BoardDelete => delete_boards
  | MemberAdd => post_board_members
  | MemberRemove => delete_board_member
  | ListCreate => post_board_lists
  | ListUpdate => put_lists
  | ListDelete => delete_lists
  | ListReorder => put_list_position
  | TaskCreate => post_list_tasks
  | TaskUpdate => put_tasks
  | TaskDelete => delete_tasks
  | TaskReorder => put_task_position
  | TaskAssign => post_task_users
  | TaskUnassign => delete_task_users
  | TaskMove => put_task_lists
  end.

(** One request: the effects in order, and the store afterwards. *)
Definition handler_trace (m : Mutation) (r : Request) (st : Store) : list Effect :=
  let '(_, es, _) := handler m r st in es.


(* ================================================================== *)
(** * Theorems *)




Lemma membersOf_addAll_same (a : Adapter) (sid room : string) :
  membersOf (addAll sid room a) room = {[sid]} ∪ membersOf a room.
Proof. unfold membersOf at 1; simpl. rewrite lookup_insert_eq. reflexivity. Qed.

Lemma joinedRoomsOf_addAll_same (a : Adapter) (sid room : string) :
  joinedRoomsOf (addAll sid room a) sid = {[room]} ∪ joinedRoomsOf a sid.
Proof. unfold joinedRoomsOf at 1; simpl. rewrite lookup_insert_eq. reflexivity. Qed.

Lemma addAll_idem (a : Adapter) (sid room : string) :
  addAll sid room (addAll sid room a) = addAll sid room a.
Proof.
  unfold addAll at 1.
  rewrite membersOf_addAll_same, joinedRoomsOf_addAll_same.
  rewrite !union_assoc_L, !union_idemp_L.
  destruct a as [rs ss]; unfold addAll; simpl.
  rewrite !insert_insert_eq. reflexivity.
Qed.

Lemma del_not_joined_rooms (a : Adapter) (sid room r : string) :
  sid ∉ membersOf a room -> membersOf (del sid room a) r = membersOf a r.
Proof.
  intros Hn. unfold membersOf in *; simpl. unfold del_room.
  destruct (rooms a !! room) as [s|] eqn:Hs; simpl in *; [|reflexivity].
  assert (Hd : s ∖ {[sid]} = s) by set_solver.
  rewrite Hd. case_decide as He.
  - subst s. destruct (decide (room = r)) as [->|Hne].
    + rewrite lookup_delete_eq, Hs. reflexivity.
    + rewrite lookup_delete_ne by exact Hne. reflexivity.
  - destruct (decide (room = r)) as [->|Hne].
    + rewrite lookup_insert_eq, Hs. reflexivity.
    + rewrite lookup_insert_ne by exact Hne. reflexivity.
Qed.

Lemma del_not_joined_sids (a : Adapter) (sid room s : string) :
  room ∉ joinedRoomsOf a sid -> joinedRoomsOf (del sid room a) s = joinedRoomsOf a s.
Proof.
  intros Hn. unfold joinedRoomsOf in *; simpl.
  destruct (sids a !! sid) as [t|] eqn:Ht; simpl in *; [|reflexivity].
  assert (Hd : t ∖ {[room]} = t) by set_solver.
  rewrite Hd. destruct (decide (sid = s)) as [->|Hne].
  - rewrite lookup_insert_eq, Ht. reflexivity.
  - rewrite lookup_insert_ne by exact Hne. reflexivity.
Qed.

(** C8: Idempotent join and leave.  Re-running [socket.join(room)] for a
    socket already in the room leaves the adapter state unchanged (so the
    room's member set keeps its size); [socket.leave(room)] from the
    leave-board handler for a room the socket never joined is total (no
    error) and leaves every room's member set and every socket's room set
    unchanged. *)
Theorem join_twice_and_leave_unjoined_noop (a : Adapter) (sid boardId : string) :
  let room := boardRoom boardId in
  let a1 := apply_call sid a (SJoin room) in
  apply_call sid a1 (SJoin room) = a1
  /\ size (membersOf (apply_call sid a1 (SJoin room)) room) = size (membersOf a1 room)
  /\ (sid ∉ membersOf a room -> room ∉ joinedRoomsOf a sid ->
      let a2 := run_calls sid a (leave_board boardId) in
      (forall r, membersOf a2 r = membersOf a r)
      /\ (forall s, joinedRoomsOf a2 s = joinedRoomsOf a s)).
Proof.
  simpl. split; [apply addAll_idem|]. split.
  - rewrite addAll_idem. reflexivity.
  - intros Hr Hs. split.
    + intros r. apply del_not_joined_rooms. exact Hr.
    + intros s. apply del_not_joined_sids. exact Hs.
Qed.

(** [socket.join]/[socket.leave] are the only calls touching the adapter;
    a handler that only emits leaves it as it is. *)
Lemma run_calls_emit_only (sid : string) (a : Adapter) (ev : string) (p : Payload) :
  run_calls sid a [SEmit ev p] = a.
Proof. reflexivity. Qed.

Lemma join_board_invalid_id (db : BoardDb) (userId boardId : string) :
  isValid boardId = false ->
  join_board db userId boardId = [SEmit "error" (PError msg_invalid)].
Proof. intros Hb. unfold join_board. rewrite Hb. reflexivity. Qed.

Lemma join_board_not_found (db : BoardDb) (userId boardId : string) :
  isValid boardId = true -> findById db boardId = None ->
  join_board db userId boardId = [SEmit "error" (PError msg_not_found)].
Proof. intros Hb Hf. unfold join_board. rewrite Hb, Hf. reflexivity. Qed.

Lemma join_board_checked (db : BoardDb) (userId boardId : string) (board : Board) :
  isValid userId = true -> isValid boardId = true ->
  findById db boardId = Some board ->
  join_board db userId boardId
  = if is_creator_or_member board userId
    then [SJoin (boardRoom boardId); SEmit "joined-board" (PJoined boardId)]
    else [SEmit "error" (PError msg_denied)].
Proof.
  intros Hu Hb Hf. unfold join_board, is_creator_or_member.
  rewrite Hb, Hf, Hu. simpl.
  destruct (String.eqb (createdBy board) (oid_toString userId)),
    (existsb _ (members board)); reflexivity.
Qed.

(** C2: The gate of the join-board handler, in order and short-circuiting:
    an id that is not a valid ObjectId is rejected as InvalidId, then a
    missing board as NotFound, then a user who is neither creator nor
    member as Forbidden (each rejection leaves the adapter as it was);
    otherwise the socket joins room(boardId) and is acknowledged with
    [joined-board { boardId }].  The user id is the one of a signed token,
    a valid ObjectId. *)
Theorem join_gate_checks_in_order (db : BoardDb) (userId boardId sid : string)
  (a : Adapter) :
  isValid userId = true ->
  let cs := join_board db userId boardId in
  (isValid boardId = false ->
     outcome_of cs = Some (Rejected InvalidId) /\ run_calls sid a cs = a)
  /\ (isValid boardId = true -> findById db boardId = None ->
     outcome_of cs = Some (Rejected NotFound) /\ run_calls sid a cs = a)
  /\ (forall board, isValid boardId = true -> findById db boardId = Some board ->
     is_creator_or_member board userId = false ->
     outcome_of cs = Some (Rejected Forbidden) /\ run_calls sid a cs = a)
  /\ (forall board, isValid boardId = true -> findById db boardId = Some board ->
     is_creator_or_member board userId = true ->
     outcome_of cs = Some (Accepted (boardRoom boardId) boardId)
     /\ run_calls sid a cs = addAll sid (boardRoom boardId) a).
Proof.
  intros Hu cs. subst cs. split; [|split; [|split]].
  - intros Hb. rewrite join_board_invalid_id by exact Hb. split; reflexivity.
  - intros Hb Hf. rewrite join_board_not_found by assumption. split; reflexivity.
  - intros board Hb Hf Hcm. rewrite (join_board_checked db userId boardId board Hu Hb Hf).
    rewrite Hcm. split; reflexivity.
  - intros board Hb Hf Hcm. rewrite (join_board_checked db userId boardId board Hu Hb Hf).
    rewrite Hcm. split; reflexivity.
Qed.

(** [board.members.splice(board.members.findIndex(m => m.toString() ===
    memberId.toString()), 1)] of DELETE /boards/:boardId/members/:userId. *)
Definition remove_first (x : string) (l : list string) : list string :=
  match findIndex x l with
  | Some i => splice_remove l i
  | None => l
  end.

Lemma existsb_eqb_In (x : string) (l : list string) :
  existsb (fun m => String.eqb m x) l = true <-> In x l.
Proof.
  rewrite existsb_exists. split.
  - intros [y [Hy Heq]]. apply String.eqb_eq in Heq. subst. exact Hy.
  - intros Hx. exists x. split; [exact Hx|]. apply String.eqb_refl.
Qed.

Definition uid1 : string := "aaaaaaaaaaaaaaaaaaaaaaaa".
Definition bid1 : string := "bbbbbbbbbbbbbbbbbbbbbbbb".
Definition db_owner_member : BoardDb := [mkBoard bid1 uid1 [uid1]].

Definition empty_adapter : Adapter := {| rooms := ∅; sids := ∅ |}.

Lemma delAll_unregisters (a : Adapter) (sid : string) :
  registered (delAll sid a) sid = false.
Proof.
  unfold registered, delAll; simpl. rewrite lookup_delete_eq.
  apply bool_decide_eq_false. intros [x Hx]. discriminate.
Qed.

Lemma run_socket_disconnected_join_board (s : Socket) (a : Adapter)
  (db : BoardDb) (userId boardId : string) :
  sock_connected s = false -> run_socket s a (join_board db userId boardId) = a.
Proof.
  intros Hs. unfold run_socket, join_board.
  repeat case_match; simpl; rewrite ?Hs; reflexivity.
Qed.

(** C6 refuted: the join-board handler does not check that its socket is
    still connected once [await Board.findById] has resolved.  For a
    socket that disconnected while the lookup was pending, the handler
    still calls [socket.join(room)] when the checks pass. *)
Lemma join_issued_for_unregistered_socket :
  ~ (forall (db : BoardDb) (userId boardId sid : string) (a : Adapter),
       let '(s', a') := disconnect (mkSocket sid true) a in
       sock_connected s' = false ->
       ~ In (SJoin (boardRoom boardId)) (join_board db userId boardId)).
Proof.
  intros H.
  apply (H db_owner_member uid1 bid1 "s1" (addAll "s1" (boardRoom bid1) empty_adapter)).
  - reflexivity.
  - vm_compute. left. reflexivity.
Qed.

(** C6 (as the code has it): a socket that disconnects while the board
    lookup of its join request is pending is out of every room's
    bookkeeping ([registered] false) and has the no-op [join]; whatever
    the lookup returns, the handler's calls then leave the adapter exactly
    as the disconnect left it, so no room gains the socket.  The handler
    makes no check of its own: when the checks pass it still calls
    [socket.join(room(boardId))]. *)
Theorem join_after_disconnect_is_noop (db : BoardDb) (userId boardId sid : string)
  (a : Adapter) (s' : Socket) (a' : Adapter) :
  disconnect (mkSocket sid true) a = (s', a') ->
  sock_connected s' = false
  /\ registered a' sid = false
  /\ run_socket s' a' (join_board db userId boardId) = a'
  /\ (forall room, membersOf (run_socket s' a' (join_board db userId boardId)) room
                   = membersOf a' room)
  /\ (forall board, isValid userId = true -> isValid boardId = true ->
        findById db boardId = Some board -> is_creator_or_member board userId = true ->
        In (SJoin (boardRoom boardId)) (join_board db userId boardId)).
Proof.
  unfold disconnect. intros H. inversion H; subst s' a'; clear H.
  assert (Hrun : run_socket (mkSocket sid false) (delAll sid a)
                   (join_board db userId boardId) = delAll sid a).
  { apply run_socket_disconnected_join_board. reflexivity. }
  split; [reflexivity|]. split; [apply delAll_unregisters|].
  split; [exact Hrun|]. split.
  - intros room. rewrite Hrun. reflexivity.
  - intros board Hu Hb Hf Hcm.
    rewrite (join_board_checked db userId boardId board Hu Hb Hf), Hcm.
    left. reflexivity.
Qed.



Lemma strip_prefix_app (p s : string) : strip_prefix p (String.append p s) = Some s.
Proof.
  induction p as [|c p IH]; simpl; [reflexivity|].
  rewrite Ascii.eqb_refl. exact IH.
Qed.








(** A handler step that makes no emit call, from any store. *)
Definition no_emit {A} (m : HM A) : Prop :=
  forall st, Forall (fun e => is_emit e = false) (m st).1.2.

Lemma no_emit_ret {A} (a : A) : no_emit (retH a).
Proof. intros st. constructor. Qed.

Lemma no_emit_liftR {A} (r : Result A) : no_emit (liftR r).
Proof. intros st. constructor. Qed.

Lemma no_emit_query {A} what (q : Store -> Result A) : no_emit (query what q).
Proof. intros st. repeat constructor. Qed.

Lemma no_emit_write what w : no_emit (write what w).
Proof. intros st. unfold write. destruct (w st); repeat constructor. Qed.

Lemma no_emit_respond code : no_emit (respond code).
Proof. intros st. repeat constructor. Qed.

Lemma no_emit_bind {A B} (m : HM A) (k : A -> HM B) :
  no_emit m -> (forall a, no_emit (k a)) -> no_emit (bindH m k).
Proof.
  intros Hm Hk st. unfold bindH. specialize (Hm st).
  destruct (m st) as [[st1 es1] [a|e]] eqn:E; simpl in *; [|exact Hm].
  specialize (Hk a st1). destruct (k a st1) as [[st2 es2] r]; simpl in *.
  apply Forall_app. auto.
Qed.

Lemma no_emit_catch (m : HM unit) (h : string -> HM unit) :
  no_emit m -> (forall e, no_emit (h e)) -> no_emit (catchH m h).
Proof.
  intros Hm Hh st. unfold catchH. specialize (Hm st).
  destruct (m st) as [[st1 es1] [a|e]] eqn:E; simpl in *; [exact Hm|].
  specialize (Hh e st1). destruct (h e st1) as [[st2 es2] r]; simpl in *.
  apply Forall_app. auto.
Qed.

Lemma no_emit_write_each {A} what (w : A -> Store -> Result Store) xs :
  no_emit (write_each what w xs).
Proof.
  induction xs as [|x xs IH]; simpl.
  - apply no_emit_ret.
  - apply no_emit_bind; [apply no_emit_write | intros _; exact IH].
Qed.

Create HintDb no_emit_db.
#[local] Hint Resolve no_emit_ret no_emit_liftR no_emit_query no_emit_write
  no_emit_respond no_emit_write_each : no_emit_db.

Ltac no_emit_tac :=
  repeat first
    [ progress auto with no_emit_db
    | apply no_emit_catch; [|intros ?]
    | apply no_emit_bind; [|intros ?]
    | progress cbv beta zeta
    | progress unfold validation_or, with_task_board, boardById, listById, taskById
    | case_match ].

Lemma handler_no_emit (m : Mutation) (r : Request) : no_emit (handler m r).
Proof.
  destruct m; simpl;
    unfold post_boards, put_boards, delete_boards, post_board_members,
      delete_board_member, post_board_lists, put_lists, delete_lists,
      put_list_position, post_list_tasks, put_tasks, delete_tasks,
      put_task_position, post_task_users, delete_task_users, put_task_lists;
    no_emit_tac.
Qed.

Lemma handler_trace_fst (m : Mutation) (r : Request) (st : Store) :
  handler_trace m r st = (handler m r st).1.2.
Proof. unfold handler_trace. destruct (handler m r st) as [[? ?] ?]. reflexivity. Qed.

Lemma filter_none {A} (f : A -> bool) (l : list A) :
  Forall (fun x => f x = false) l -> List.filter f l = [].
Proof. induction 1 as [|x l Hx _ IH]; simpl; [reflexivity|]. rewrite Hx. exact IH. Qed.

(** The request of the C5 counterexample: [POST /boards] with a title. *)
Definition roadmap_request : Request :=
  mkRequest uid1 "" "" "" "" [("title", JStr "Roadmap")] bid1.

Definition empty_store : Store := mkStore [] [] [].

(** C5 refuted: the mutation handlers make no emit call at all (no route
    module imports the emit helpers). POST /boards with a title writes the
    board and answers 201, and its trace holds no emit, let alone exactly
    one. *)
Lemma board_create_emits_nothing :
  ~ (forall (m : Mutation) (r : Request) (st : Store),
       (exists w, In (DbWrite w) (handler_trace m r st)) ->
       (exists code, In (Respond code) (handler_trace m r st) /\ (200 <= code < 300)%nat) ->
       exists k, List.filter is_emit (handler_trace m r st) = [Emit k]).
Proof.
  intros H.
  assert (Htr : handler_trace BoardCreate roadmap_request empty_store
                = [DbWrite "board.save"; Respond 201]) by (vm_compute; reflexivity).
  destruct (H BoardCreate roadmap_request empty_store) as [k Hk].
  - exists "board.save". rewrite Htr. left. reflexivity.
  - exists 201%nat. rewrite Htr. split; [right; left; reflexivity | lia].
  - rewrite Htr in Hk. discriminate Hk.
Qed.

(** C5 (as the code has it): no REST mutation handler calls the
    dispatcher. Whatever the request and the stored data, the effects of
    each handler (reads, persistence writes and the HTTP response, on
    every path including the error ones) contain no emit call. *)
Theorem rest_handlers_never_emit (m : Mutation) (r : Request) (st : Store) :
  emit_count (handler_trace m r st) = 0%nat
  /\ Forall (fun e => is_emit e = false) (handler_trace m r st).
Proof.
  rewrite handler_trace_fst.
  pose proof (handler_no_emit m r st) as H.
  split; [unfold emit_count; rewrite (filter_none _ _ H); reflexivity | exact H].
Qed.

(** The frame that [strip_protected] does give: a key that is neither
    [assignedTo] nor [position] nor an [assignedTo.<i>] path leaves both
    fields as they are. *)
Lemma split_dot_app (k h s : string) :
  split_dot k = Some (h, s) -> k = String.append h (String "." s).
Proof.
  revert h s. induction k as [|c k IH]; intros h s; simpl; [discriminate|].
  destruct (Ascii.eqb_spec c "."%char) as [->|Hc].
  - intros H. inversion H. reflexivity.
  - destruct (split_dot k) as [[h' r]|] eqn:E; [|discriminate].
    intros H. inversion H; subst. rewrite (IH h' s eq_refl). reflexivity.
Qed.

Lemma set_path_frame (t t' : Task) (k : string) (v : Json) :
  String.eqb k "assignedTo" = false -> String.eqb k "position" = false ->
  strip_prefix "assignedTo." k = None ->
  set_path t (k, v) = Ok t' ->
  task_assignedTo t' = task_assignedTo t /\ task_position t' = task_position t.
Proof.
  intros Ha Hp Hd. unfold set_path. rewrite Ha, Hp.
  assert (Hh : forall head seg, split_dot k = Some (head, seg) ->
                 String.eqb head "assignedTo" = false).
  { intros head seg Hs. apply String.eqb_neq. intros ->.
    apply split_dot_app in Hs. subst k.
    change (String.append "assignedTo" (String "." seg))
      with (String.append "assignedTo." seg) in Hd.
    rewrite strip_prefix_app in Hd. discriminate. }
  destruct (split_dot k) as [[head seg]|] eqn:Hs; [rewrite (Hh head seg eq_refl)|];
  destruct (String.eqb k "title"); try (destruct (String.eqb k "description"));
    try (destruct (String.eqb k "listId")); try (destruct (String.eqb k "labels"));
    unfold bindR; repeat match goal with |- context [match ?m with _ => _ end] =>
      destruct m end; intros H; inversion H; subst; simpl; auto.
Qed.

Lemma put_task_plain_keys_frame (body : Body) (t t' : Task) :
  Forall (fun kv => strip_prefix "assignedTo." kv.1 = None) body ->
  put_task t body = Ok t' ->
  task_assignedTo t' = task_assignedTo t /\ task_position t' = task_position t.
Proof.
  unfold put_task. intros Hall.
  assert (Hs : Forall (fun kv => String.eqb kv.1 "assignedTo" = false
                      /\ String.eqb kv.1 "position" = false
                      /\ strip_prefix "assignedTo." kv.1 = None)
                 (strip_protected body)).
  { unfold strip_protected. induction Hall as [|[k v] body Hk _ IH];
      cbn [List.filter fst]; [constructor|].
    destruct (String.eqb k "assignedTo") eqn:E1, (String.eqb k "position") eqn:E2;
      cbn [orb negb]; auto. }
  revert t. induction Hs as [|[k v] upd [H1 [H2 H3]] _ IH]; intros t;
    cbn [apply_set].
  - intros H. inversion H. auto.
  - destruct (set_path t (k, v)) as [t1|e] eqn:E; cbn [bindR]; [|discriminate].
    intros H. destruct (set_path_frame t t1 k v H1 H2 H3 E) as [Ea Ep].
    destruct (IH t1 H) as [Ea' Ep']. split; congruence.
Qed.

Definition uid2 : string := "cccccccccccccccccccccccc".
Definition lid1 : string := "dddddddddddddddddddddddd".
Definition task0 : Task := mkTask "Write spec" "" lid1 [uid1] [] 3.

(** C9 fails: the update strips only the exact keys [assignedTo] and
    [position]; a body [{ "assignedTo.0": "<id>" }] reaches [$set] and
    replaces the first assignee. *)
Theorem put_task_dotted_key_changes_assignees :
  put_task task0 [("assignedTo.0", JStr uid2)]
    = Ok (mkTask "Write spec" "" lid1 [uid2] [] 3)
  /\ task_assignedTo task0 <> [uid2].
Proof. split; [vm_compute; reflexivity | discriminate]. Qed.

Lemma findIndex_some (x : string) (l : list string) (i : nat) :
  findIndex x l = Some i -> l !! i = Some x.
Proof.
  revert i. induction l as [|y l IH]; intros i; simpl; [discriminate|].
  destruct (String.eqb_spec y x) as [->|_].
  - intros H. inversion H. reflexivity.
  - destruct (findIndex x l) as [j|]; [|discriminate].
    intros H. inversion H; subst. simpl. apply IH. reflexivity.
Qed.

Lemma findIndex_in (x : string) (l : list string) :
  In x l -> exists i, findIndex x l = Some i.
Proof.
  induction l as [|y l IH]; simpl; [intros []|].
  intros Hin. destruct (String.eqb_spec y x) as [->|Hne]; [eauto|].
  destruct Hin as [->|Hin]; [congruence|].
  destruct (IH Hin) as [i ->]. eauto.
Qed.

Lemma splice_remove_length (l : list string) (i : nat) (x : string) :
  l !! i = Some x -> List.length (splice_remove l i) = pred (List.length l).
Proof.
  intros H. apply lookup_lt_Some in H. unfold splice_remove.
  rewrite length_app, length_take, length_drop. lia.
Qed.

Lemma splice_remove_perm (l : list string) (i : nat) (x : string) :
  l !! i = Some x -> x :: splice_remove l i ≡ₚ l.
Proof.
  intros H. unfold splice_remove.
  rewrite <- (take_drop_middle l i x H) at 3.
  apply Permutation_middle.
Qed.

Lemma assign_positions_fst (l : list string) : (assign_positions l).*1 = l.
Proof. unfold assign_positions. apply fst_zip. rewrite length_seq. lia. Qed.

Lemma assign_positions_snd (l : list string) :
  (assign_positions l).*2 = seq 0 (List.length l).
Proof. unfold assign_positions. apply snd_zip. rewrite length_seq. lia. Qed.

(** X21: the reorder of api.ts writes the positions 0..n-1 in order to a
    permutation of the board's lists, with the moved list at
    clamp(position, 0, n-1). *)
Lemma reorder_api_contiguous_clamped (lists : list string) (listId : string)
  (position : Z) :
  In listId lists ->
  let r := reorder_api lists listId position in
  r.*2 = seq 0 (List.length lists)
  /\ r.*1 ≡ₚ lists
  /\ r.*1 !! Z.to_nat (clamp_index (List.length lists) position) = Some listId.
Proof.
  intros Hin r. subst r. unfold reorder_api.
  destruct (findIndex_in _ _ Hin) as [i Hi]. rewrite Hi.
  pose proof (findIndex_some _ _ _ Hi) as Hl.
  pose proof (splice_remove_length _ _ _ Hl) as Hlen.
  pose proof (lookup_lt_Some _ _ _ Hl) as Hlt.
  set (l1 := splice_remove lists i) in *.
  set (c := Z.max 0 (Z.min position (Z.of_nat (List.length l1)))).
  assert (Hk : splice_start (List.length l1) c = Z.to_nat c).
  { unfold splice_start, c. destruct (Z.ltb_spec (Z.max 0 (Z.min position
      (Z.of_nat (List.length l1)))) 0); lia. }
  assert (Hc : clamp_index (List.length lists) position = c).
  { unfold clamp_index, c. lia. }
  unfold splice_insert. rewrite Hk, Hc.
  rewrite assign_positions_fst, assign_positions_snd.
  assert (Hkl : (Z.to_nat c <= List.length l1)%nat) by (unfold c; lia).
  split; [|split].
  - rewrite length_app, length_take, length_app, length_drop. simpl.
    f_equal. lia.
  - rewrite <- (splice_remove_perm _ _ _ Hl). fold l1.
    simpl. rewrite <- Permutation_middle. rewrite take_drop. reflexivity.
  - rewrite lookup_app_r; rewrite length_take; [|lia].
    replace (Z.to_nat c - Nat.min (Z.to_nat c) (List.length l1))%nat with 0%nat
      by lia. reflexivity.
Qed.

Definition lists3 : list string := ["l0"; "l1"; "l2"].

(** C10 fails on routes/lists.ts, the router api.ts mounts: without the
    clamp of the api.ts copy, [lists.splice(-1, 0, list)] counts from the
    end, so moving the first of three lists to position -1 puts it at
    index 1, not at clamp(-1, 0, 2) = 0. *)
Theorem reorder_lists_negative_position_not_clamped :
  reorder_lists lists3 "l0" (-1) = [("l1", 0%nat); ("l0", 1%nat); ("l2", 2%nat)]
  /\ clamp_index (List.length lists3) (-1) = 0%Z
  /\ (reorder_lists lists3 "l0" (-1)).*1 !! 0%nat <> Some "l0".
Proof. split; [reflexivity | split; [reflexivity | discriminate]]. Qed.

(* ------------------------------------------------------------------ *)
(** ** Witnesses: the theorems above at concrete inputs *)

Definition adapter_joined : Adapter := addAll "s1" (boardRoom bid1) empty_adapter.

Lemma join_gate_checks_in_order_witness :
  isValid uid1 = true
  /\ let cs := join_board db_owner_member uid1 bid1 in
     (isValid bid1 = false ->
        outcome_of cs = Some (Rejected InvalidId) /\ run_calls "s1" empty_adapter cs = empty_adapter)
     /\ (isValid bid1 = true -> findById db_owner_member bid1 = None ->
        outcome_of cs = Some (Rejected NotFound) /\ run_calls "s1" empty_adapter cs = empty_adapter)
     /\ (forall board, isValid bid1 = true -> findById db_owner_member bid1 = Some board ->
        is_creator_or_member board uid1 = false ->
        outcome_of cs = Some (Rejected Forbidden) /\ run_calls "s1" empty_adapter cs = empty_adapter)
     /\ (forall board, isValid bid1 = true -> findById db_owner_member bid1 = Some board ->
        is_creator_or_member board uid1 = true ->
        outcome_of cs = Some (Accepted (boardRoom bid1) bid1)
        /\ run_calls "s1" empty_adapter cs = addAll "s1" (boardRoom bid1) empty_adapter).
Proof.
  split; [reflexivity|].
  apply (join_gate_checks_in_order db_owner_member uid1 bid1 "s1" empty_adapter).
  reflexivity.
Defined.

Lemma join_after_disconnect_is_noop_witness :
  disconnect (mkSocket "s1" true) adapter_joined
    = (mkSocket "s1" false, delAll "s1" adapter_joined)
  /\ (sock_connected (mkSocket "s1" false) = false
  /\ registered (delAll "s1" adapter_joined) "s1" = false
  /\ run_socket (mkSocket "s1" false) (delAll "s1" adapter_joined)
       (join_board db_owner_member uid1 bid1) = delAll "s1" adapter_joined
  /\ (forall room, membersOf (run_socket (mkSocket "s1" false) (delAll "s1" adapter_joined)
                                (join_board db_owner_member uid1 bid1)) room
                   = membersOf (delAll "s1" adapter_joined) room)
  /\ (forall board, isValid uid1 = true -> isValid bid1 = true ->
        findById db_owner_member bid1 = Some board -> is_creator_or_member board uid1 = true ->
        In (SJoin (boardRoom bid1)) (join_board db_owner_member uid1 bid1))).
Proof.
  split; [reflexivity|].
  apply (join_after_disconnect_is_noop db_owner_member uid1 bid1 "s1" adapter_joined
           (mkSocket "s1" false) (delAll "s1" adapter_joined)).
  reflexivity.
Defined.


(** The api.ts copy on the same input: the list lands at index 0. *)
Example reorder_api_negative_position :
  reorder_api lists3 "l0" (-1) = [("l0", 0%nat); ("l1", 1%nat); ("l2", 2%nat)].
Proof. reflexivity. Qed.

(* ------------------------------------------------------------------ *)
(** ** Request parsing, authentication and the Socket.IO server *)

Lemma lower_ascii_idem (c : ascii) : lower_ascii (lower_ascii c) = lower_ascii c.
Proof. destruct c as [[] [] [] [] [] [] [] []]; reflexivity. Qed.

Lemma is_hex_lower_ascii (c : ascii) : is_hex (lower_ascii c) = is_hex c.
Proof. destruct c as [[] [] [] [] [] [] [] []]; reflexivity. Qed.

Lemma lower_idem (s : string) : lower (lower s) = lower s.
Proof. induction s as [|c s IH]; simpl; [reflexivity|]. rewrite lower_ascii_idem, IH. reflexivity. Qed.

Lemma length_lower (s : string) : String.length (lower s) = String.length s.
Proof. induction s as [|c s IH]; simpl; congruence. Qed.

Lemma all_hex_lower (s : string) : all_hex (lower s) = all_hex s.
Proof. induction s as [|c s IH]; simpl; [reflexivity|]. rewrite is_hex_lower_ascii, IH. reflexivity. Qed.

Lemma isValid_lower (s : string) : isValid (lower s) = isValid s.
Proof. unfold isValid. rewrite length_lower, all_hex_lower. reflexivity. Qed.

Lemma split_aux_no_sep (sep : ascii) (s : string) :
  has_char sep s = false -> split_aux sep s = (s, []).
Proof.
  induction s as [|c s IH]; simpl; [reflexivity|].
  intros H. apply orb_false_elim in H as [Hc Hs].
  rewrite (IH Hs). rewrite Hc. reflexivity.
Qed.

Lemma split_aux_app (sep : ascii) (s t : string) :
  has_char sep s = false ->
  split_aux sep (String.append s (String sep t)) = (s, js_split sep t).
Proof.
  induction s as [|c s IH]; simpl.
  - intros _. unfold js_split. destruct (split_aux sep t). rewrite Ascii.eqb_refl. reflexivity.
  - intros H. apply orb_false_elim in H as [Hc Hs].
    rewrite (IH Hs). rewrite Hc. reflexivity.
Qed.

Lemma js_split_app (sep : ascii) (s t : string) :
  has_char sep s = false ->
  js_split sep (String.append s (String sep t)) = s :: js_split sep t.
Proof. intros H. unfold js_split at 1. rewrite (split_aux_app sep s t H). reflexivity. Qed.

Lemma js_split_no_sep (sep : ascii) (s : string) :
  has_char sep s = false -> js_split sep s = [s].
Proof. intros H. unfold js_split. rewrite (split_aux_no_sep sep s H). reflexivity. Qed.

Lemma vercel_tail_app (mid : string) :
  no_line_terminator mid = true -> vercel_tail (String.append mid ".vercel.app") = true.
Proof.
  induction mid as [|c mid IH]; [reflexivity|].
  intros H. simpl in H. apply andb_prop in H as [Hc Hm].
  cbn [String.append vercel_tail]. apply orb_true_iff. right.
  apply andb_true_iff. split; [exact Hc|exact (IH Hm)].
Qed.

Lemma existsb_eqb_sym (u : string) (l : list string) :
  existsb (String.eqb u) l = existsb (fun m => String.eqb m u) l.
Proof. induction l as [|m l IH]; simpl; [reflexivity|]. rewrite String.eqb_sym, IH. reflexivity. Qed.

(** For a canonical user id, the REST access test is the negation of the
    socket gate's test. *)
Lemma board_access_denied_gate (board : Board) (u : string) :
  oid_toString u = u ->
  board_access_denied board u = negb (is_creator_or_member board u).
Proof.
  intros Hu. unfold board_access_denied, is_creator_or_member. rewrite Hu, existsb_eqb_sym.
  destruct (String.eqb _ _), (existsb _ _); reflexivity.
Qed.

Lemma initializePusher_calls_target (mk : PusherConfig -> PusherClient)
  (envs : list PusherEnv) (pusher : option PusherClient) :
  let target := match pusher with
                | Some p => Some p
                | None => option_map mk (first_pusher_config envs)
                end in
  (initializePusher_calls mk pusher envs).2 = target
  /\ Forall (fun r => match r with
                      | Ok p => Some p = target
                      | Throw e => e = "Pusher configuration error: Missing environment variables"
                      end) (initializePusher_calls mk pusher envs).1.
Proof.
  revert pusher. induction envs as [|env envs IH]; intros pusher; simpl.
  - destruct pusher; split; try constructor; reflexivity.
  - destruct pusher as [p|].
    + destruct (IH (Some p)) as [H2 H1]. simpl in *. split; [exact H2|].
      constructor; [reflexivity|exact H1].
    + unfold initializePusher. simpl. destruct (pusher_config env) as [cfg|]; simpl.
      * destruct (IH (Some (mk cfg))) as [H2 H1]. simpl in *. split; [exact H2|].
        constructor; [reflexivity|exact H1].
      * destruct (IH None) as [H2 H1]. simpl in *. split; [exact H2|].
        constructor; [reflexivity|exact H1].
Qed.

(* ------------------------------------------------------------------ *)
(** ** Boards, members and tasks *)

Lemma obj_get_app_some (o1 o2 : Body) (k : string) (v : Json) :
  obj_get o2 k = Some v -> obj_get (app o1 o2) k = Some v.
Proof.
  intros H. induction o1 as [|[k' v'] o1 IH]; simpl; [exact H|]. rewrite IH. reflexivity.
Qed.

Lemma obj_get_app_none (o1 o2 : Body) (k : string) :
  obj_get o2 k = None -> obj_get (app o1 o2) k = obj_get o1 k.
Proof.
  intros H. induction o1 as [|[k' v'] o1 IH]; simpl; [exact H|]. rewrite IH. reflexivity.
Qed.

Lemma bindR_Ok {A B} (m : Result A) (k : A -> Result B) (b : B) :
  bindR m k = Ok b -> exists a, m = Ok a /\ k a = Ok b.
Proof. destruct m as [a|e]; simpl; [eauto|discriminate]. Qed.

Lemma findById_some_id (db : BoardDb) (boardId : string) (board : Board) :
  findById db boardId = Some board -> board.(board_id) = oid_toString boardId.
Proof.
  unfold findById. intros H. apply List.find_some in H as [_ H].
  apply String.eqb_eq in H. exact H.
Qed.

Lemma findById_save (db : BoardDb) (boardId : string) (board b' : Board) :
  findById db boardId = Some board -> b'.(board_id) = oid_toString boardId ->
  findById (save_board db b') boardId = Some b'.
Proof.
  unfold findById, save_board. intros Hf Hb. rewrite Hb.
  induction db as [|x db IH]; simpl in *; [discriminate|].
  destruct (String.eqb x.(board_id) (oid_toString boardId)) eqn:Hx; simpl.
  - rewrite Hb, String.eqb_refl. reflexivity.
  - rewrite Hx. apply IH. exact Hf.
Qed.













Lemma findIndex_app_notin (x : string) (l : list string) :
  existsb (fun m => String.eqb m x) l = false -> findIndex x (l ++ [x]) = Some (List.length l).
Proof.
  induction l as [|y l IH]; simpl.
  - rewrite String.eqb_refl. reflexivity.
  - intros H. apply orb_false_elim in H as [Hy Hl]. rewrite Hy, (IH Hl). reflexivity.
Qed.

Lemma splice_remove_last (l : list string) (x : string) :
  splice_remove (l ++ [x]) (List.length l) = l.
Proof.
  unfold splice_remove. rewrite take_app_length, drop_ge; [apply app_nil_r|].
  rewrite length_app. simpl. lia.
Qed.

Lemma NoDup_snoc (l : list string) (x : string) :
  ~ In x l -> NoDup l -> NoDup (l ++ [x]).
Proof.
  intros Hx Hl. rewrite <- Permutation_cons_append.
  constructor; [rewrite list_elem_of_In; exact Hx|exact Hl].
Qed.

Lemma set_assignees_twice (t : Task) (xs ys : list string) :
  set_assignees (set_assignees t xs) ys = set_assignees t ys.
Proof. reflexivity. Qed.

Lemma set_assignees_same (t : Task) : set_assignees t t.(task_assignedTo) = t.
Proof. destruct t. reflexivity. Qed.

Lemma filter_save_task (ts : TaskStore) (k : string) (t' : Task) :
  List.filter (fun p => negb (String.eqb p.1 k)) (save_task ts k t')
  = List.filter (fun p => negb (String.eqb p.1 k)) ts.
Proof.
  unfold save_task. induction ts as [|[k' t] ts IH]; simpl; [reflexivity|].
  destruct (String.eqb k' k) eqn:E; simpl; rewrite ?E; simpl; rewrite IH; reflexivity.
Qed.

Lemma findList_some_id (ls : list ListDoc) (listId : string) (l : ListDoc) :
  findList ls listId = Some l -> l.(list_id) = oid_toString listId.
Proof.
  unfold findList. intros H. apply List.find_some in H as [_ H].
  apply String.eqb_eq in H. exact H.
Qed.

Lemma splice_insert_perm (l : list string) (start : Z) (x : string) :
  splice_insert l start x ≡ₚ x :: l.
Proof.
  unfold splice_insert. set (k := splice_start _ _).
  change (app [x] (drop k l)) with (x :: drop k l).
  rewrite <- Permutation_middle, take_drop. reflexivity.
Qed.

Lemma outcome_invalid : outcome_of [SEmit "error" (PError msg_invalid)] = Some (Rejected InvalidId).
Proof. reflexivity. Qed.

Lemma outcome_not_found : outcome_of [SEmit "error" (PError msg_not_found)] = Some (Rejected NotFound).
Proof. reflexivity. Qed.

Lemma outcome_denied : outcome_of [SEmit "error" (PError msg_denied)] = Some (Rejected Forbidden).
Proof. reflexivity. Qed.

Lemma outcome_failed : outcome_of [SEmit "error" (PError msg_failed)] = Some (Rejected JoinFailed).
Proof. reflexivity. Qed.

Lemma cors_origin_nonempty (client_url : option string) (o : string) :
  o <> "" ->
  cors_origin client_url (Some o)
  = existsb (String.eqb o) (getAllowedOrigins client_url) || vercel_origin o.
Proof. destruct o; [congruence|reflexivity]. Qed.

Lemma cast_oid_valid (s : string) : isValid s = true -> cast_oid (JStr s) = Ok (oid_toString s).
Proof. intros H. unfold cast_oid. rewrite H. reflexivity. Qed.

Lemma is_creator_or_member_oid (board : Board) (u : string) :
  is_creator_or_member board (oid_toString u) = is_creator_or_member board u.
Proof. unfold is_creator_or_member, oid_toString. rewrite lower_idem. reflexivity. Qed.

Lemma length_assign_positions (l : list string) : List.length (assign_positions l) = List.length l.
Proof. rewrite <- (length_fmap fst (assign_positions l)), assign_positions_fst. reflexivity. Qed.

(** X1: the user id that authMiddleware puts on the request is a valid
    ObjectId in canonical (lower-case) form. *)
Theorem authMiddleware_user_canonical (verify : JwtVerify) (authorization : option string)
  (u : string) :
  authMiddleware verify authorization = AuthUser u -> isValid u = true /\ oid_toString u = u.
Proof.
  unfold authMiddleware.
  destruct authorization as [h|]; [|discriminate].
  destruct (js_split " "%char h !! 1%nat) as [tok|]; [|discriminate].
  destruct tok as [|c tok']; [discriminate|].
  destruct (verify (String c tok')) as [[uid|]|]; try discriminate.
  destruct (String.eqb uid "" || negb (isValid uid)) eqn:Hc; [discriminate|].
  intros H. injection H as <-. apply orb_false_elim in Hc as [_ Hv]. apply negb_false_iff in Hv.
  unfold oid_toString. rewrite isValid_lower, lower_idem. split; [exact Hv|reflexivity].
Qed.

(** X2: authMiddleware reads the token as the second space-separated field
    of the Authorization header and never looks at the first one: any
    scheme word gives the same outcome as [Bearer].  Two spaces after the
    scheme, or a header with no space, give 401 "Authentication required". *)
Theorem authMiddleware_reads_second_field (verify : JwtVerify) (scheme tok : string) :
  has_char " "%char scheme = false -> has_char " "%char tok = false ->
  authMiddleware verify (Some (String.append scheme (String " "%char tok)))
    = authMiddleware verify (Some (String.append "Bearer " tok))
  /\ authMiddleware verify (Some (String.append scheme (String " "%char (String " "%char tok))))
    = AuthReject 401 "Authentication required"
  /\ authMiddleware verify (Some scheme) = AuthReject 401 "Authentication required".
Proof.
  intros Hs Ht. unfold authMiddleware.
  change (String.append "Bearer " tok) with (String.append "Bearer" (String " "%char tok)).
  rewrite (js_split_app " "%char "Bearer" _ eq_refl).
  split; [|split].
  - rewrite (js_split_app _ scheme _ Hs), (js_split_no_sep _ tok Ht). reflexivity.
  - rewrite (js_split_app _ scheme _ Hs).
    pose proof (js_split_app " "%char "" tok eq_refl
                : js_split " "%char (String " "%char tok) = "" :: js_split " "%char tok) as E.
    rewrite E, (js_split_no_sep _ tok Ht). reflexivity.
  - rewrite (js_split_no_sep _ scheme Hs). reflexivity.
Qed.

(** X3: the Socket.IO middleware stores the token's [userId] without
    checking it.  A token whose [userId] is not a valid ObjectId opens a
    socket connection, is refused by authMiddleware with 401 "Invalid token
    payload", and never gets a join-board admitted. *)
Theorem socket_accepts_token_rest_rejects (verify : JwtVerify) (tok uid : string) :
  tok <> "" -> has_char " "%char tok = false ->
  verify tok = Some (Some uid) -> isValid uid = false ->
  socket_auth verify (Some tok) = SockAccept (Some uid)
  /\ authMiddleware verify (Some (String.append "Bearer " tok))
     = AuthReject 401 "Invalid token payload"
  /\ (forall (db : BoardDb) (boardId room b : string),
        outcome_of (join_board db uid boardId) <> Some (Accepted room b)).
Proof.
  intros Hne Hs Hv Hu. split; [|split].
  - unfold socket_auth. destruct tok as [|c t]; [congruence|]. rewrite Hv. reflexivity.
  - unfold authMiddleware.
    change (String.append "Bearer " tok) with (String.append "Bearer" (String " "%char tok)).
    rewrite (js_split_app " "%char "Bearer" _ eq_refl), (js_split_no_sep _ tok Hs).
    destruct tok as [|c t]; [congruence|]. simpl. rewrite Hv, Hu, orb_true_r. reflexivity.
  - intros db boardId room b. destruct (isValid boardId) eqn:Hb.
    + destruct (findById db boardId) as [board|] eqn:Hf.
      * unfold join_board. rewrite Hb, Hf, Hu. simpl. discriminate.
      * rewrite (join_board_not_found db uid boardId Hb Hf), outcome_not_found. discriminate.
    + rewrite (join_board_invalid_id db uid boardId Hb), outcome_invalid. discriminate.
Qed.

(** X4: getCredentials splits the decoded credentials at every colon and
    keeps only the first two fields: a password that contains a colon is
    cut at its first colon. *)
Theorem getCredentials_password_stops_at_colon (b64decode : string -> string)
  (c email p1 p2 : string) :
  has_char " "%char c = false -> has_char ":"%char email = false ->
  has_char ":"%char p1 = false ->
  b64decode c = String.append email (String ":"%char (String.append p1 (String ":"%char p2))) ->
  getCredentials b64decode (Some (String.append "Basic " c)) = Some (email, Some p1).
Proof.
  intros Hc He Hp Hd. unfold getCredentials. rewrite strip_prefix_app.
  change (String.append "Basic " c) with (String.append "Basic" (String " "%char c)).
  rewrite (js_split_app " "%char "Basic" _ eq_refl), (js_split_no_sep _ c Hc).
  change (default "" (["Basic"; c] !! 1%nat)) with c.
  rewrite Hd, (split_aux_app _ email _ He), (js_split_app _ p1 _ Hp). reflexivity.
Qed.

(** X5: the CORS check of the Socket.IO server admits every origin of the
    form https://task-flow-web<anything>.vercel.app, whatever CLIENT_URL
    is. *)
Theorem cors_allows_any_task_flow_web_vercel_origin (client_url : option string)
  (mid : string) :
  no_line_terminator mid = true ->
  cors_origin client_url
    (Some (String.append "https://task-flow-web" (String.append mid ".vercel.app"))) = true.
Proof.
  intros H. rewrite cors_origin_nonempty by discriminate.
  unfold vercel_origin. rewrite strip_prefix_app, (vercel_tail_app mid H). apply orb_true_r.
Qed.

(** X6: over successive calls of initializePusher, the client is built
    from the first environment that has the three required variables and
    is kept from then on; every call before it throws the configuration
    error, every call from it on returns that client. *)
Theorem initializePusher_first_config_sticks (mk : PusherConfig -> PusherClient)
  (envs : list PusherEnv) :
  (initializePusher_calls mk None envs).2 = option_map mk (first_pusher_config envs)
  /\ Forall (fun r => match r with
                      | Ok p => Some p = option_map mk (first_pusher_config envs)
                      | Throw e => e = "Pusher configuration error: Missing environment variables"
                      end) (initializePusher_calls mk None envs).1.
Proof. exact (initializePusher_calls_target mk envs None). Qed.

(** X7: for an authenticated user, GET /boards/:boardId returns the board
    exactly when a join-board of the same board id is admitted. *)
Theorem get_board_agrees_with_join_gate (db : BoardDb) (u boardId : string) :
  isValid u = true -> oid_toString u = u ->
  (exists b, get_board db u boardId = RBody b)
  <-> outcome_of (join_board db u boardId) = Some (Accepted (boardRoom boardId) boardId).
Proof.
  intros Hv Hc. unfold get_board.
  destruct (isValid boardId) eqn:Hb; simpl.
  - destruct (findById db boardId) as [board|] eqn:Hf.
    + rewrite (join_board_checked db u boardId board Hv Hb Hf), (board_access_denied_gate board u Hc).
      destruct (is_creator_or_member board u); simpl.
      * split; [reflexivity|]. intros _. eauto.
      * split; [intros [b H]; discriminate|discriminate].
    + rewrite (join_board_not_found db u boardId Hb Hf), outcome_not_found.
      split; [intros [b H]; discriminate|discriminate].
  - rewrite (join_board_invalid_id db u boardId Hb), outcome_invalid.
    split; [intros [b H]; discriminate|discriminate].
Qed.

(** X8: GET /boards lists exactly the boards whose creator or members
    include the user, which are the boards the socket gate admits. *)
Theorem boards_listing_matches_join_gate (db : BoardDb) (u : string) (b : Board) :
  oid_toString u = u ->
  In b (boards_of_user db u) <-> In b db /\ is_creator_or_member b u = true.
Proof.
  intros Hu. unfold boards_of_user. rewrite List.filter_In.
  unfold is_creator_or_member. rewrite Hu, existsb_eqb_sym. reflexivity.
Qed.

(** X9: POST /boards makes the authenticated user the creator and only
    member of the new board, whatever the body says about [createdBy] and
    [members]. *)
Theorem create_board_owner_from_token (body : Body) (u newId : string) (b : Board) :
  isValid u = true -> oid_toString u = u ->
  create_board body u newId = RBody b -> b = mkBoard newId u [u].
Proof.
  intros Hv Hc. unfold create_board, new_board.
  rewrite (obj_get_app_some body _ "createdBy" (JStr u)) by reflexivity.
  rewrite (obj_get_app_some body _ "members" (JArr [JStr u])) by reflexivity.
  cbv beta iota.
  destruct (required_string _); simpl; [|discriminate].
  destruct (optional_string _); simpl; [|discriminate].
  rewrite Hv, Hc. simpl.
  intros H. injection H as <-. reflexivity.
Qed.

(** X10: once the creator has added a user through POST
    /boards/:boardId/members and the board is saved, that user's
    join-board of the board is admitted. *)
Theorem add_member_then_join_accepted (db : BoardDb) (u boardId userId fresh : string)
  (b : Board) :
  add_member db u boardId (Some userId) fresh = RBody b ->
  outcome_of (join_board (save_board db b) userId boardId)
  = Some (Accepted (boardRoom boardId) boardId).
Proof.
  unfold add_member. destruct (isValid boardId) eqn:Hb; simpl; [|discriminate].
  destruct (findById db boardId) as [board|] eqn:Hf; [|discriminate].
  destruct (negb (String.eqb board.(createdBy) u)); [discriminate|].
  destruct (isValid userId) eqn:Hu; [|discriminate].
  destruct (existsb _ board.(members)); [discriminate|].
  intros H. injection H as Hbe.
  assert (Hs : findById (save_board db b) boardId = Some b).
  { apply (findById_save db boardId board b Hf). rewrite <- Hbe.
    exact (findById_some_id db boardId board Hf). }
  rewrite (join_board_checked _ userId boardId b Hu Hb Hs). subst b.
  unfold is_creator_or_member. simpl.
  rewrite (proj2 (existsb_eqb_In _ _)); [rewrite orb_true_r; reflexivity|].
  apply in_or_app. right. left. reflexivity.
Qed.

(** X11: adding a user who is not yet a member and then removing that
    user gives back the board as it was. *)
Theorem add_then_remove_member_restores (db : BoardDb) (u boardId userId fresh : string)
  (board b : Board) :
  findById db boardId = Some board ->
  add_member db u boardId (Some userId) fresh = RBody b ->
  remove_member_route (save_board db b) u boardId userId = RBody board.
Proof.
  intros Hf. unfold add_member. destruct (isValid boardId) eqn:Hb; simpl; [|discriminate].
  rewrite Hf.
  destruct (negb (String.eqb board.(createdBy) u)) eqn:Hc; [discriminate|].
  destruct (isValid userId) eqn:Hu; [|discriminate].
  destruct (existsb _ board.(members)) eqn:He; [discriminate|].
  intros H. injection H as Hbe.
  assert (Hs : findById (save_board db b) boardId = Some b).
  { apply (findById_save db boardId board b Hf). rewrite <- Hbe.
    exact (findById_some_id db boardId board Hf). }
  unfold remove_member_route. rewrite Hb. simpl. rewrite Hs. subst b. simpl.
  rewrite Hc, Hu. simpl. rewrite (findIndex_app_notin _ _ He), splice_remove_last.
  destruct board. reflexivity.
Qed.

(** X12: POST /boards/:boardId/members keeps the members of a board
    pairwise distinct. *)
Theorem add_member_keeps_members_distinct (db : BoardDb) (u boardId : string)
  (userId : option string) (fresh : string) (board b : Board) :
  findById db boardId = Some board -> NoDup board.(members) ->
  add_member db u boardId userId fresh = RBody b -> NoDup b.(members).
Proof.
  intros Hf Hnd. unfold add_member. destruct (isValid boardId); simpl; [|discriminate].
  rewrite Hf. destruct (negb (String.eqb board.(createdBy) u)); [discriminate|].
  destruct userId as [s|]; [destruct (isValid s)|]; try discriminate;
    match goal with
    | |- context [existsb (fun x => String.eqb x ?m) ?l] =>
        destruct (existsb (fun x => String.eqb x m) l) eqn:He; [discriminate|];
        intros H; injection H as <-; simpl;
        apply NoDup_snoc; [|exact Hnd];
        intros Hin; apply existsb_eqb_In in Hin; congruence
    end.
Qed.

(** X13: when the members of a board are distinct, removing a user who
    is not the creator through DELETE /boards/:boardId/members/:userId
    makes that user's next join-board Forbidden. *)
Theorem remove_member_then_join_forbidden (db : BoardDb) (u boardId userId : string)
  (board b : Board) :
  findById db boardId = Some board -> NoDup board.(members) ->
  board.(createdBy) <> oid_toString userId ->
  remove_member_route db u boardId userId = RBody b ->
  outcome_of (join_board (save_board db b) userId boardId) = Some (Rejected Forbidden).
Proof.
  intros Hf Hnd Hc. unfold remove_member_route.
  destruct (isValid boardId) eqn:Hb; simpl; [|discriminate].
  rewrite Hf. destruct (negb (String.eqb board.(createdBy) u)); [discriminate|].
  destruct (isValid userId) eqn:Hu; simpl; [|discriminate].
  destruct (findIndex (oid_toString userId) board.(members)) as [i|] eqn:Hi; [|discriminate].
  intros H. injection H as Hbe.
  assert (Hs : findById (save_board db b) boardId = Some b).
  { apply (findById_save db boardId board b Hf). rewrite <- Hbe.
    exact (findById_some_id db boardId board Hf). }
  rewrite (join_board_checked _ userId boardId b Hu Hb Hs). subst b.
  assert (Hn : NoDup (oid_toString userId :: splice_remove board.(members) i)).
  { rewrite (splice_remove_perm _ _ _ (findIndex_some _ _ _ Hi)). exact Hnd. }
  apply NoDup_cons in Hn as [Hn _]. rewrite list_elem_of_In in Hn.
  unfold is_creator_or_member. simpl. apply String.eqb_neq in Hc. rewrite Hc. simpl.
  destruct (existsb _ _) eqn:He; [apply existsb_eqb_In in He; contradiction|].
  exact outcome_denied.
Qed.

(** X14: POST /boards/:boardId/members without a [userId] in the body does
    not fail: [new ObjectId(undefined)] generates a fresh id, which is
    appended to the members. *)
Theorem add_member_without_userId_adds_fresh_id (db : BoardDb) (u boardId fresh : string)
  (board b : Board) :
  findById db boardId = Some board ->
  add_member db u boardId None fresh = RBody b ->
  b.(members) = app board.(members) [fresh] /\ ~ In fresh board.(members)
  /\ b.(createdBy) = u.
Proof.
  intros Hf. unfold add_member. destruct (isValid boardId); simpl; [|discriminate].
  rewrite Hf. destruct (String.eqb board.(createdBy) u) eqn:Hc; simpl; [|discriminate].
  destruct (existsb _ board.(members)) eqn:He; [discriminate|].
  intros H. injection H as <-. simpl. split; [reflexivity|split].
  - intros Hin. apply existsb_eqb_In in Hin. congruence.
  - apply String.eqb_eq. exact Hc.
Qed.

(** X15: POST /tasks/:taskId/users/:userId appends the canonical id of
    the user, who is the board's creator or one of its members and was not
    assigned before. *)
Theorem assign_task_member_adds_board_member (board : Board) (t : Task) (u userId : string)
  (t' : Task) :
  assign_task_member board t u userId = RBody t' ->
  t'.(task_assignedTo) = app t.(task_assignedTo) [oid_toString userId]
  /\ ~ In (oid_toString userId) t.(task_assignedTo)
  /\ is_creator_or_member board userId = true.
Proof.
  unfold assign_task_member. destruct (board_access_denied board u); [discriminate|].
  destruct (isValid userId); simpl; [|discriminate].
  destruct (board_access_denied board (oid_toString userId)) eqn:Hd; [discriminate|].
  destruct (existsb _ t.(task_assignedTo)) eqn:He; [discriminate|].
  intros H. injection H as <-. split; [reflexivity|split].
  - intros Hin. apply existsb_eqb_In in Hin. congruence.
  - rewrite board_access_denied_gate in Hd
      by (unfold oid_toString; apply lower_idem).
    rewrite is_creator_or_member_oid in Hd. apply negb_false_iff. exact Hd.
Qed.

(** X16: unassigning a user right after assigning it gives back the task
    as it was. *)
Theorem assign_then_unassign_restores (board : Board) (t : Task) (u userId : string)
  (t' : Task) :
  assign_task_member board t u userId = RBody t' ->
  unassign_task_member board t' u userId = RBody t.
Proof.
  unfold assign_task_member. destruct (board_access_denied board u) eqn:Ha; [discriminate|].
  destruct (isValid userId) eqn:Hu; simpl; [|discriminate].
  destruct (board_access_denied board (oid_toString userId)); [discriminate|].
  destruct (existsb _ t.(task_assignedTo)) eqn:He; [discriminate|].
  intros H. injection H as <-.
  unfold unassign_task_member. rewrite Ha, Hu. simpl.
  rewrite (findIndex_app_notin _ _ He), splice_remove_last, set_assignees_twice.
  rewrite set_assignees_same. reflexivity.
Qed.

(** X17: POST /lists/:listId/tasks takes [listId] and [position] from the
    route (the last position plus one, or 0), whatever the body says, and
    the assignees from the body as they cast, with no check that they are
    board members. *)
Theorem create_task_fields (board : Board) (body : Body) (listId : string)
  (lastPosition : option Z) (u : string) (t : Task) :
  create_task board body listId lastPosition u = RBody t ->
  board_access_denied board u = false
  /\ t.(task_listId) = oid_toString listId
  /\ t.(task_position) = match lastPosition with Some p => (p + 1)%Z | None => 0%Z end
  /\ cast_array cast_oid (obj_get body "assignedTo") = Ok t.(task_assignedTo).
Proof.
  unfold create_task, new_task. destruct (board_access_denied board u); [discriminate|].
  cbv beta iota zeta. intros H. split; [reflexivity|].
  destruct (build_task _) as [t0|e] eqn:Hbt; [|discriminate].
  injection H as <-. unfold build_task in Hbt.
  rewrite (obj_get_app_some body _ "listId" (JStr listId)) in Hbt by reflexivity.
  rewrite (obj_get_app_none body _ "assignedTo") in Hbt by reflexivity.
  rewrite (obj_get_app_some body _ "position"
             (JNum match lastPosition with Some p => (p + 1)%Z | None => 0%Z end))
    in Hbt by reflexivity.
  apply bindR_Ok in Hbt as [title [_ Hbt]]. cbv beta in Hbt.
  apply bindR_Ok in Hbt as [desc [_ Hbt]]. cbv beta in Hbt.
  apply bindR_Ok in Hbt as [lid [Hl Hbt]]. cbv beta in Hbt.
  apply bindR_Ok in Hbt as [asg [Ha Hbt]]. cbv beta in Hbt.
  apply bindR_Ok in Hbt as [lab [_ Hbt]]. cbv beta in Hbt.
  simpl in Hbt. injection Hbt as <-. simpl.
  unfold cast_oid in Hl. destruct (isValid listId); [|discriminate].
  injection Hl as <-. split; [reflexivity|split; [reflexivity|exact Ha]].
Qed.

(** X18: PUT /tasks/:taskId/lists/:listId compares the task's list with the
    raw route parameter.  A listId that names the task's own list in
    another spelling (upper-case hex) is taken as a move: the task gets the
    position equal to the number of tasks in its list, itself included. *)
Theorem move_task_to_own_list_by_other_spelling (db : BoardDb) (ls : list ListDoc)
  (ts : TaskStore) (u taskId listId : string) (task : Task) (sourceList : ListDoc)
  (board : Board) :
  isValid taskId = true -> isValid listId = true ->
  findTask ts taskId = Some task ->
  oid_toString listId = task.(task_listId) -> listId <> task.(task_listId) ->
  findList ls task.(task_listId) = Some sourceList ->
  findById db sourceList.(list_boardId) = Some board ->
  board_access_denied board u = false ->
  let task' := set_list_position task task.(task_listId)
                 (Z.of_nat (countDocuments ts task.(task_listId))) in
  move_task_to_list db ls ts u taskId listId
  = (RBody task', save_task ts (oid_toString taskId) task').
Proof.
  intros Htv Hlv Ht Hl Hne Hs Hb Hd task'.
  assert (Hfl : findList ls listId = Some sourceList).
  { rewrite <- Hs. unfold findList. rewrite <- Hl. unfold oid_toString. rewrite lower_idem.
    reflexivity. }
  assert (Hid : sourceList.(list_id) = task.(task_listId)).
  { rewrite (findList_some_id _ _ _ Hs), <- Hl. unfold oid_toString. apply lower_idem. }
  unfold move_task_to_list. rewrite Htv. simpl. rewrite Ht, Hs, Hb, Hlv. simpl.
  rewrite Hfl, String.eqb_refl. simpl. rewrite Hd.
  assert (Hn : String.eqb task.(task_listId) listId = false).
  { apply String.eqb_neq. intros E. apply Hne. symmetry. exact E. }
  rewrite Hn, Hid, Hl. reflexivity.
Qed.

(** X19: PUT /tasks/:taskId/lists/:listId writes no task other than the
    moved one. *)
Theorem move_task_leaves_other_tasks (db : BoardDb) (ls : list ListDoc) (ts : TaskStore)
  (u taskId listId : string) :
  List.filter (fun p => negb (String.eqb p.1 (oid_toString taskId)))
    (move_task_to_list db ls ts u taskId listId).2
  = List.filter (fun p => negb (String.eqb p.1 (oid_toString taskId))) ts.
Proof.
  unfold move_task_to_list.
  repeat (case_match; simpl; try reflexivity).
  apply filter_save_task.
Qed.

(** X20: the reorder of PUT /lists/:listId/position writes the positions
    0..n-1 in order, to the board's lists with the moved one taken out and
    put back once. *)
Theorem reorder_lists_contiguous_permutation (lists : list string) (listId : string)
  (position : Z) :
  let r := reorder_lists lists listId position in
  r.*2 = seq 0 (List.length r) /\ r.*1 ≡ₚ listId :: remove_first listId lists.
Proof.
  intros r. unfold r, reorder_lists. cbv zeta.
  rewrite assign_positions_snd, assign_positions_fst, length_assign_positions.
  split; [reflexivity|]. rewrite splice_insert_perm. reflexivity.
Qed.

(* ------------------------------------------------------------------ *)
(** ** Concrete runs of the routes above *)

(** A [jwt.verify] for two signed tokens: [tok.a] carries [uid1],
    [tok.b] carries a [userId] that is not an ObjectId. *)
Definition verify_demo : JwtVerify :=
  fun tok => if String.eqb tok "tok.a" then Some (Some uid1)
             else if String.eqb tok "tok.b" then Some (Some "user-7")
             else None.

(** Base64 decoding of the one header used below ('ann@x.io:pa:ss'). *)
Definition b64_demo (s : string) : string :=
  if String.eqb s "YW5uQHguaW86cGE6c3M=" then "ann@x.io:pa:ss" else "".

Definition board_two : Board := mkBoard bid1 uid1 [uid1; uid2].
Definition db_two : BoardDb := [board_two].
Definition fresh1 : string := "eeeeeeeeeeeeeeeeeeeeeeee".
Definition tid1 : string := "111111111111111111111111".
Definition tid2 : string := "222222222222222222222222".
Definition lid1_upper : string := "DDDDDDDDDDDDDDDDDDDDDDDD".
Definition lists_demo : list ListDoc := [mkList lid1 bid1].
Definition task_a : Task := mkTask "A" "" lid1 [] [] 0.
Definition task_b : Task := mkTask "B" "" lid1 [] [] 1.
Definition store_demo : TaskStore := [(tid1, task_a); (tid2, task_b)].

Definition board_body_demo : Body :=
  [("title", JStr "Roadmap"); ("createdBy", JStr uid2); ("members", JArr [JStr uid2])].

Definition task_body_demo : Body :=
  [("title", JStr " Ship "); ("assignedTo", JArr [JStr uid2]);
   ("listId", JStr "ffffffffffffffffffffffff"); ("position", JNum 99)].

Lemma authMiddleware_user_canonical_witness :
  authMiddleware verify_demo (Some "Bearer tok.a") = AuthUser uid1
  /\ (isValid uid1 = true /\ oid_toString uid1 = uid1).
Proof.
  split; [reflexivity|].
  apply (authMiddleware_user_canonical verify_demo (Some "Bearer tok.a") uid1).
  reflexivity.
Defined.

Lemma authMiddleware_reads_second_field_witness :
  has_char " "%char "Basic" = false /\ has_char " "%char "tok.a" = false
  /\ authMiddleware verify_demo (Some "Basic tok.a") = AuthUser uid1
  /\ (authMiddleware verify_demo (Some (String.append "Basic" (String " "%char "tok.a")))
        = authMiddleware verify_demo (Some (String.append "Bearer " "tok.a"))
      /\ authMiddleware verify_demo
           (Some (String.append "Basic" (String " "%char (String " "%char "tok.a"))))
        = AuthReject 401 "Authentication required"
      /\ authMiddleware verify_demo (Some "Basic") = AuthReject 401 "Authentication required").
Proof.
  split; [reflexivity|]. split; [reflexivity|]. split; [reflexivity|].
  apply (authMiddleware_reads_second_field verify_demo "Basic" "tok.a"); reflexivity.
Defined.

Lemma socket_accepts_token_rest_rejects_witness :
  "tok.b" <> "" /\ has_char " "%char "tok.b" = false
  /\ verify_demo "tok.b" = Some (Some "user-7") /\ isValid "user-7" = false
  /\ (socket_auth verify_demo (Some "tok.b") = SockAccept (Some "user-7")
      /\ authMiddleware verify_demo (Some (String.append "Bearer " "tok.b"))
         = AuthReject 401 "Invalid token payload"
      /\ (forall (db : BoardDb) (boardId room b : string),
            outcome_of (join_board db "user-7" boardId) <> Some (Accepted room b))).
Proof.
  split; [discriminate|]. split; [reflexivity|]. split; [reflexivity|]. split; [reflexivity|].
  apply (socket_accepts_token_rest_rejects verify_demo "tok.b" "user-7");
    [discriminate|reflexivity|reflexivity|reflexivity].
Defined.

Lemma getCredentials_password_stops_at_colon_witness :
  has_char " "%char "YW5uQHguaW86cGE6c3M=" = false
  /\ b64_demo "YW5uQHguaW86cGE6c3M=" = "ann@x.io:pa:ss"
  /\ getCredentials b64_demo (Some (String.append "Basic " "YW5uQHguaW86cGE6c3M="))
     = Some ("ann@x.io", Some "pa").
Proof.
  split; [reflexivity|]. split; [reflexivity|].
  apply (getCredentials_password_stops_at_colon b64_demo "YW5uQHguaW86cGE6c3M="
           "ann@x.io" "pa" "ss"); reflexivity.
Defined.

Lemma cors_allows_any_task_flow_web_vercel_origin_witness :
  no_line_terminator "-attacker" = true
  /\ cors_origin None
       (Some (String.append "https://task-flow-web" (String.append "-attacker" ".vercel.app")))
     = true.
Proof.
  split; [reflexivity|].
  apply (cors_allows_any_task_flow_web_vercel_origin None "-attacker"). reflexivity.
Defined.

Lemma get_board_agrees_with_join_gate_witness :
  isValid uid2 = true /\ oid_toString uid2 = uid2
  /\ get_board db_owner_member uid2 bid1 = RStatus 403 "Access denied"
  /\ ((exists b, get_board db_owner_member uid2 bid1 = RBody b)
      <-> outcome_of (join_board db_owner_member uid2 bid1)
          = Some (Accepted (boardRoom bid1) bid1)).
Proof.
  split; [reflexivity|]. split; [reflexivity|]. split; [reflexivity|].
  apply (get_board_agrees_with_join_gate db_owner_member uid2 bid1); reflexivity.
Defined.

Lemma boards_listing_matches_join_gate_witness :
  oid_toString uid2 = uid2
  /\ (In board_two (boards_of_user db_two uid2)
      <-> In board_two db_two /\ is_creator_or_member board_two uid2 = true).
Proof.
  split; [reflexivity|].
  apply (boards_listing_matches_join_gate db_two uid2 board_two). reflexivity.
Defined.

Lemma create_board_owner_from_token_witness :
  isValid uid1 = true /\ oid_toString uid1 = uid1
  /\ create_board board_body_demo uid1 bid1 = RBody (mkBoard bid1 uid1 [uid1])
  /\ mkBoard bid1 uid1 [uid1] = mkBoard bid1 uid1 [uid1].
Proof.
  split; [reflexivity|]. split; [reflexivity|]. split; [vm_compute; reflexivity|].
  apply (create_board_owner_from_token board_body_demo uid1 bid1 (mkBoard bid1 uid1 [uid1]));
    [reflexivity|reflexivity|vm_compute; reflexivity].
Defined.

Lemma add_member_then_join_accepted_witness :
  add_member db_owner_member uid1 bid1 (Some uid2) fresh1 = RBody board_two
  /\ outcome_of (join_board (save_board db_owner_member board_two) uid2 bid1)
     = Some (Accepted (boardRoom bid1) bid1).
Proof.
  split; [vm_compute; reflexivity|].
  apply (add_member_then_join_accepted db_owner_member uid1 bid1 uid2 fresh1 board_two).
  vm_compute. reflexivity.
Defined.

Lemma add_then_remove_member_restores_witness :
  findById db_owner_member bid1 = Some (mkBoard bid1 uid1 [uid1])
  /\ add_member db_owner_member uid1 bid1 (Some uid2) fresh1 = RBody board_two
  /\ remove_member_route (save_board db_owner_member board_two) uid1 bid1 uid2
     = RBody (mkBoard bid1 uid1 [uid1]).
Proof.
  split; [vm_compute; reflexivity|]. split; [vm_compute; reflexivity|].
  apply (add_then_remove_member_restores db_owner_member uid1 bid1 uid2 fresh1
           (mkBoard bid1 uid1 [uid1]) board_two); vm_compute; reflexivity.
Defined.

Lemma add_member_keeps_members_distinct_witness :
  findById db_owner_member bid1 = Some (mkBoard bid1 uid1 [uid1])
  /\ NoDup [uid1]
  /\ add_member db_owner_member uid1 bid1 (Some uid2) fresh1 = RBody board_two
  /\ NoDup board_two.(members).
Proof.
  split; [vm_compute; reflexivity|]. split; [apply NoDup_singleton|].
  split; [vm_compute; reflexivity|].
  apply (add_member_keeps_members_distinct db_owner_member uid1 bid1 (Some uid2) fresh1
           (mkBoard bid1 uid1 [uid1]) board_two);
    [vm_compute; reflexivity|apply NoDup_singleton|vm_compute; reflexivity].
Defined.

Lemma remove_member_then_join_forbidden_witness :
  findById db_two bid1 = Some board_two /\ NoDup board_two.(members)
  /\ board_two.(createdBy) <> oid_toString uid2
  /\ remove_member_route db_two uid1 bid1 uid2 = RBody (mkBoard bid1 uid1 [uid1])
  /\ outcome_of (join_board (save_board db_two (mkBoard bid1 uid1 [uid1])) uid2 bid1)
     = Some (Rejected Forbidden).
Proof.
  assert (Hnd : NoDup board_two.(members)).
  { constructor; [|apply NoDup_singleton].
    rewrite list_elem_of_In. intros [H|[]]. discriminate H. }
  assert (Hc : board_two.(createdBy) <> oid_toString uid2).
  { intros H. vm_compute in H. discriminate H. }
  split; [vm_compute; reflexivity|]. split; [exact Hnd|]. split; [exact Hc|].
  split; [vm_compute; reflexivity|].
  apply (remove_member_then_join_forbidden db_two uid1 bid1 uid2 board_two
           (mkBoard bid1 uid1 [uid1])); [vm_compute; reflexivity|exact Hnd|exact Hc|].
  vm_compute. reflexivity.
Defined.

Lemma add_member_without_userId_adds_fresh_id_witness :
  findById db_owner_member bid1 = Some (mkBoard bid1 uid1 [uid1])
  /\ add_member db_owner_member uid1 bid1 None fresh1 = RBody (mkBoard bid1 uid1 [uid1; fresh1])
  /\ ((mkBoard bid1 uid1 [uid1; fresh1]).(members) = app [uid1] [fresh1]
      /\ ~ In fresh1 [uid1] /\ (mkBoard bid1 uid1 [uid1; fresh1]).(createdBy) = uid1).
Proof.
  split; [vm_compute; reflexivity|]. split; [vm_compute; reflexivity|].
  apply (add_member_without_userId_adds_fresh_id db_owner_member uid1 bid1 fresh1
           (mkBoard bid1 uid1 [uid1]) (mkBoard bid1 uid1 [uid1; fresh1]));
    vm_compute; reflexivity.
Defined.

Lemma assign_task_member_adds_board_member_witness :
  assign_task_member board_two task0 uid1 uid2 = RBody (mkTask "Write spec" "" lid1 [uid1; uid2] [] 3)
  /\ ((mkTask "Write spec" "" lid1 [uid1; uid2] [] 3).(task_assignedTo)
        = app task0.(task_assignedTo) [oid_toString uid2]
      /\ ~ In (oid_toString uid2) task0.(task_assignedTo)
      /\ is_creator_or_member board_two uid2 = true).
Proof.
  split; [vm_compute; reflexivity|].
  apply (assign_task_member_adds_board_member board_two task0 uid1 uid2). vm_compute. reflexivity.
Defined.

Lemma assign_then_unassign_restores_witness :
  assign_task_member board_two task0 uid1 uid2 = RBody (mkTask "Write spec" "" lid1 [uid1; uid2] [] 3)
  /\ unassign_task_member board_two (mkTask "Write spec" "" lid1 [uid1; uid2] [] 3) uid1 uid2
     = RBody task0.
Proof.
  split; [vm_compute; reflexivity|].
  apply (assign_then_unassign_restores board_two task0 uid1 uid2). vm_compute. reflexivity.
Defined.

Lemma create_task_fields_witness :
  is_creator_or_member (mkBoard bid1 uid1 [uid1]) uid2 = false
  /\ create_task (mkBoard bid1 uid1 [uid1]) task_body_demo lid1 (Some 4%Z) uid1
     = RBody (mkTask "Ship" "" lid1 [uid2] [] 5)
  /\ (board_access_denied (mkBoard bid1 uid1 [uid1]) uid1 = false
      /\ (mkTask "Ship" "" lid1 [uid2] [] 5).(task_listId) = oid_toString lid1
      /\ (mkTask "Ship" "" lid1 [uid2] [] 5).(task_position) = (4 + 1)%Z
      /\ cast_array cast_oid (obj_get task_body_demo "assignedTo")
         = Ok (mkTask "Ship" "" lid1 [uid2] [] 5).(task_assignedTo)).
Proof.
  split; [vm_compute; reflexivity|]. split; [vm_compute; reflexivity|].
  apply (create_task_fields (mkBoard bid1 uid1 [uid1]) task_body_demo lid1 (Some 4%Z) uid1).
  vm_compute. reflexivity.
Defined.

Lemma move_task_to_own_list_by_other_spelling_witness :
  move_task_to_list db_two lists_demo store_demo uid1 tid1 lid1_upper
  = (RBody (mkTask "A" "" lid1 [] [] 2), [(tid1, mkTask "A" "" lid1 [] [] 2); (tid2, task_b)])
  /\ move_task_to_list db_two lists_demo store_demo uid1 tid1 lid1_upper
  = (RBody (set_list_position task_a task_a.(task_listId)
              (Z.of_nat (countDocuments store_demo task_a.(task_listId)))),
     save_task store_demo (oid_toString tid1)
       (set_list_position task_a task_a.(task_listId)
          (Z.of_nat (countDocuments store_demo task_a.(task_listId))))).
Proof.
  split; [vm_compute; reflexivity|].
  refine (move_task_to_own_list_by_other_spelling db_two lists_demo store_demo uid1 tid1
            lid1_upper task_a (mkList lid1 bid1) board_two _ _ _ _ _ _ _ _).
  - reflexivity.
  - reflexivity.
  - vm_compute. reflexivity.
  - vm_compute. reflexivity.
  - discriminate.
  - vm_compute. reflexivity.
  - vm_compute. reflexivity.
  - vm_compute. reflexivity.
Defined.

Lemma reorder_api_contiguous_clamped_witness :
  In "l2" lists3
  /\ (let r := reorder_api lists3 "l2" (-5) in
      r.*2 = seq 0 (List.length lists3)
      /\ r.*1 ≡ₚ lists3
      /\ r.*1 !! Z.to_nat (clamp_index (List.length lists3) (-5)) = Some "l2").
Proof.
  split; [right; right; left; reflexivity|].
  apply reorder_api_contiguous_clamped. right; right; left; reflexivity.
Defined.
